(** * giotto.time_series.preprocessing: Resampler and Stationarizer

    A shallow embedding of [giotto/time_series/preprocessing.py].  The two
    transformers are modelled as records holding the constructor arguments
    and the attributes set by [fit]; methods that can raise return a
    [result].  [fit] assigns to [self] and returns it: here it returns the
    updated record.  Calls into numpy, pandas and scikit-learn are
    modelled by the functions of the first part of the file, each with the
    library behaviour it stands for.  Timestamps are timezone-naive and
    [sampling_period] is a frequency of fixed length. *)

From Stdlib Require Import String Ascii List ZArith Bool Arith Lia Floats.
From Stdlib Require Import Sorted Permutation Reals Lra.
Import ListNotations.
Open Scope string_scope.
Open Scope list_scope.

(** ** Exceptions *)

(** The exceptions the module and the library calls it makes can raise.
    [ValueError] carries its message. *)
Inductive exn : Type :=
| ValueError (msg : string)
| NotFittedError
| IndexError
| AttributeError.

Inductive result (A : Type) : Type :=
| Ok (a : A)
| Raise (e : exn).

Arguments Ok {A} a.
Arguments Raise {A} e.

Definition bind {A B : Type} (m : result A) (k : A -> result B) : result B :=
  match m with
  | Ok a => k a
  | Raise e => Raise e
  end.

Notation "x <- m ;; k" := (bind m (fun x => k))
  (at level 61, m at next level, right associativity).
Notation "m ;;; k" := (bind m (fun _ => k))
  (at level 61, right associativity).

Definition returns {A : Type} (m : result A) : Prop := exists a, m = Ok a.

(** ** Python strings *)

(** [needle in hay] on two [str]: substring test. *)
Fixpoint str_in (needle hay : string) : bool :=
  String.prefix needle hay
  || match hay with
     | EmptyString => false
     | String _ hay' => str_in needle hay'
     end.

(** [x in l] on a list of [str]. *)
Definition list_in (x : string) (l : list string) : bool :=
  existsb (String.eqb x) l.

(** ['... %s ...' % v] for a [str] value [v], the format string being split
    at its only [%s]. *)
Definition format_s (before after v : string) : string :=
  (before ++ v ++ after)%string.

(** ** scikit-learn: [check_is_fitted(estimator, ['_is_fitted'])]

    The attribute is modelled by an [option]: [None] when the instance has
    no such attribute.  The check raises [NotFittedError] exactly then. *)
Definition check_is_fitted (attr : option bool) : result unit :=
  match attr with
  | Some _ => Ok tt
  | None => Raise NotFittedError
  end.

(** ** numpy: two-dimensional arrays *)

(** An array of shape [(n_rows, n_cols)] stored by rows.  The column count
    is a field of its own: an array with no rows still has one. *)
Record ndarray (A : Type) : Type := mk_ndarray {
  n_cols : nat;
  data : list (list A)
}.

Arguments mk_ndarray {A} n_cols data.
Arguments n_cols {A} n.
Arguments data {A} n.

Definition n_rows {A : Type} (X : ndarray A) : nat := length (data X).

Definition shape {A : Type} (X : ndarray A) : nat * nat :=
  (n_rows X, n_cols X).

Definition well_shaped {A : Type} (X : ndarray A) : Prop :=
  Forall (fun r => length r = n_cols X) (data X).

(** [X[t, j]] *)
Definition item {A : Type} (X : ndarray A) (t j : nat) : option A :=
  match nth_error (data X) t with
  | Some r => nth_error r j
  | None => None
  end.

Fixpoint map2 {A B C : Type} (f : A -> B -> C) (l1 : list A) (l2 : list B)
  : list C :=
  match l1, l2 with
  | a :: l1', b :: l2' => f a b :: map2 f l1' l2'
  | _, _ => []
  end.

(** A binary ufunc on two arrays of the same shape, as both its uses
    below are. *)
Definition elementwise {A : Type} (f : A -> A -> A) (X Y : ndarray A)
  : ndarray A :=
  mk_ndarray (n_cols X) (map2 (map2 f) (data X) (data Y)).

(** [X[1:, :]] *)
Definition rows_from_1 {A : Type} (X : ndarray A) : ndarray A :=
  mk_ndarray (n_cols X) (tl (data X)).

(** [X[:-1, :]] *)
Definition rows_to_last {A : Type} (X : ndarray A) : ndarray A :=
  mk_ndarray (n_cols X) (removelast (data X)).

(** The element type of a numeric array with the three operations
    [Stationarizer.transform] applies to it. *)
Class Numeric (F : Type) : Type := {
  subtract : F -> F -> F;
  true_divide : F -> F -> F;
  log : F -> F
}.

(** [np.diff(X, n=1, axis=0)]: [X[1:] - X[:-1]]. *)
Definition np_diff {F : Type} {N : Numeric F} (X : ndarray F) : ndarray F :=
  elementwise subtract (rows_from_1 X) (rows_to_last X).

(** [np.log(X)] *)
Definition np_log {F : Type} {N : Numeric F} (X : ndarray F) : ndarray F :=
  mk_ndarray (n_cols X) (map (map log) (data X)).

(** [np.diff(X, n=1, axis=0) / X[1:, :]], the relative returns of [X]. *)
Definition returns_of {F : Type} {N : Numeric F} (X : ndarray F) : ndarray F :=
  elementwise true_divide (np_diff X) (rows_from_1 X).

(** IEEE binary64 with its own subtraction and division; the logarithm is
    numpy's and is taken as given. *)
Definition float64 (ln : float -> float) : Numeric float :=
  {| subtract := PrimFloat.sub; true_divide := PrimFloat.div; log := ln |}.

(** The same operations on exact real numbers. *)
Definition exact : Numeric R :=
  {| subtract := Rminus; true_divide := Rdiv; log := ln |}.

(** [x.reshape((-1, k))] on a one-dimensional [x]: numpy raises when [k] is
    zero or does not divide the size, and cuts [x] into rows of [k]
    otherwise. *)
Fixpoint chunks {A : Type} (fuel k : nat) (l : list A) : list (list A) :=
  match fuel with
  | O => []
  | S fuel' =>
      match l with
      | [] => []
      | _ => firstn k l :: chunks fuel' k (skipn k l)
      end
  end.

Definition reshape_rows {A : Type} (k : nat) (l : list A)
  : result (ndarray A) :=
  if (k =? 0)%nat || negb (length l mod k =? 0)%nat
  then Raise (ValueError "cannot reshape array")
  else Ok (mk_ndarray k (chunks (length l) k l)).

(** ** Stationarizer *)

Module Stationarizer.

(** An instance: the constructor argument, and the attribute [fit] sets
    ([None] until then). *)
Record t : Type := mk {
  stationarization_type : string;
  _is_fitted : option bool
}.

Definition valid_stationarization_types : list string :=
  ["return"; "log-return"].

Definition __init__ (stationarization_type : string) : t :=
  mk stationarization_type None.

Definition default : t := __init__ "return".

Definition _validate_params (stationarization_type : string) : result unit :=
  if negb (list_in stationarization_type valid_stationarization_types)
  then Raise (ValueError (format_s "The transformation type "
                                   " is not supported"
                                   stationarization_type))
  else Ok tt.

Definition fit {F : Type} (self : t) (X : ndarray F) : result t :=
  _validate_params (stationarization_type self) ;;;
  Ok (mk (stationarization_type self) (Some true)).

Definition transform {F : Type} {N : Numeric F} (self : t) (X : ndarray F)
  : result (ndarray F) :=
  check_is_fitted (_is_fitted self) ;;;
  let X_transformed := X in
  let X_transformed :=
    if str_in "return" (stationarization_type self)
    then elementwise true_divide (np_diff X_transformed)
                     (rows_from_1 X_transformed)
    else X_transformed in
  let X_transformed :=
    if str_in "log" (stationarization_type self)
    then np_log X_transformed
    else X_transformed in
  Ok X_transformed.

(** [TransformerMixin.fit_transform]: [self.fit(X).transform(X)]. *)
Definition fit_transform {F : Type} {N : Numeric F} (self : t) (X : ndarray F)
  : result (ndarray F) :=
  self' <- fit self X ;;
  transform self' X.

(** [get_params]: the parameter names with their values; [deep] is not
    used. *)
Definition get_params (self : t) : list (string * string) :=
  [("stationarization_type", stationarization_type self)].

End Stationarizer.

(** ** pandas: timestamps *)

Open Scope Z_scope.

(** A timezone-naive [Timestamp] is its count of nanoseconds since
    1970-01-01 00:00:00. *)
Definition Timestamp : Type := Z.

Definition ns_per_us : Z := 1000.
Definition ns_per_second : Z := 1000000000.
Definition ns_per_day : Z := 86400 * ns_per_second.

(** Days from 1970-01-01 to the proleptic Gregorian date [y-m-d]. *)
Definition days_from_civil (y m d : Z) : Z :=
  let y' := if m <=? 2 then y - 1 else y in
  let era := y' / 400 in
  let yoe := y' - era * 400 in
  let doy := (153 * (if m >? 2 then m - 3 else m + 9) + 2) / 5 + d - 1 in
  let doe := yoe * 365 + yoe / 4 - yoe / 100 + doy in
  era * 146097 + doe - 719468.

(** [pd.Timestamp(year, month, day, hour, minute, second)] *)
Definition datetime (y m d hh mm ss : Z) : Timestamp :=
  days_from_civil y m d * ns_per_day
  + (hh * 3600 + mm * 60 + ss) * ns_per_second.

(** [Timestamp.normalize()]: midnight of the same day. *)
Definition normalize (ts : Timestamp) : Timestamp :=
  ts - ts mod ns_per_day.

(** [Timestamp.dayofweek]: Monday is 0 and Sunday is 6; day 0 of the epoch
    was a Thursday. *)
Definition dayofweek (ts : Timestamp) : Z :=
  (ts / ns_per_day + 3) mod 7.

(** [datetime.time(hour, minute, second, microsecond)] *)
Record time : Type := mk_time {
  hour : Z;
  minute : Z;
  second : Z;
  microsecond : Z
}.

Definition time_eqb (a b : time) : bool :=
  (hour a =? hour b) && (minute a =? minute b)
  && (second a =? second b) && (microsecond a =? microsecond b).

(** [Timestamp.time()]: the time of day, to the microsecond. *)
Definition time_of (ts : Timestamp) : time :=
  let us := (ts mod ns_per_day) / ns_per_us in
  mk_time (us / 3600000000) (us / 60000000 mod 60)
          (us / 1000000 mod 60) (us mod 1000000).

(** The length in nanoseconds of a fixed frequency such as ['2h'] or
    ['1D']. *)
Definition hours (n : positive) : positive := (n * 3600000000000)%positive.
Definition days (n : positive) : positive := (n * 86400000000000)%positive.

(** ** pandas: data frames with a [DatetimeIndex] *)

(** A frame is stored by rows, each with its index entry.  A cell is
    [None] when the value is missing (NaN).  The column count is a field
    of its own, as a frame with no rows still has columns. *)
Record DataFrame (V : Type) : Type := mk_DataFrame {
  n_columns : nat;
  rows : list (Timestamp * list (option V))
}.

Arguments mk_DataFrame {V} n_columns rows.
Arguments n_columns {V} d.
Arguments rows {V} d.

Definition well_formed {V : Type} (X : DataFrame V) : Prop :=
  Forall (fun r => length (snd r) = n_columns X) (rows X).

(** [X.index] *)
Definition index {V : Type} (X : DataFrame V) : list Timestamp :=
  map fst (rows X).

(** Selection by a boolean mask, [l[mask]]. *)
Fixpoint select_mask {A : Type} (mask : list bool) (l : list A) : list A :=
  match mask, l with
  | b :: mask', a :: l' =>
      if b then a :: select_mask mask' l' else select_mask mask' l'
  | _, _ => []
  end.

(** [X.iloc[mask]] and [X[mask]] for a boolean [mask]. *)
Definition iloc_mask {V : Type} (X : DataFrame V) (mask : list bool)
  : DataFrame V :=
  mk_DataFrame (n_columns X) (select_mask mask (rows X)).

(** [np.isin(ar, values)] on arrays of [datetime.time]. *)
Definition np_isin (ar values : list time) : list bool :=
  map (fun a => existsb (time_eqb a) values) ar.

(** The values of column [j], row by row. *)
Definition column {V : Type} (j : nat)
  (l : list (Timestamp * list (option V))) : list (option V) :=
  map (fun r => nth j (snd r) None) l.

(** [X.iloc[:, 0].values]: pandas raises [IndexError] on a frame without
    columns. *)
Definition iloc_column_0 {V : Type} (X : DataFrame V)
  : result (list (option V)) :=
  if (n_columns X =? 0)%nat then Raise IndexError
  else Ok (column 0 (rows X)).

(** *** [X.resample(rule).first()] for a fixed-length [rule]

    pandas sorts the rows by time when they are not (a stable sort), cuts
    the time axis into bins [[edge, edge + rule)] aligned to midnight of
    the first day, from the bin of the earliest row to the bin of the
    latest one, and returns one row per bin, labelled by the left edge:
    in each column the first value of the bin that is not missing, and a
    missing value when the bin has none. *)

Fixpoint insert_row {B : Type} (r : Timestamp * B)
  (l : list (Timestamp * B)) : list (Timestamp * B) :=
  match l with
  | [] => [r]
  | r' :: l' => if fst r <=? fst r' then r :: l else r' :: insert_row r l'
  end.

Definition sort_index {B : Type} (l : list (Timestamp * B))
  : list (Timestamp * B) :=
  fold_right insert_row [] l.

Definition first_edge (rule : positive) (first : Timestamp) : Timestamp :=
  first - (first - normalize first) mod Z.pos rule.

Definition last_edge (rule : positive) (first last : Timestamp)
  : Timestamp :=
  let loffset := (last - normalize first) mod Z.pos rule in
  if loffset >? 0 then last + (Z.pos rule - loffset) else last + Z.pos rule.

Definition bin_labels (rule : positive) (first last : Timestamp)
  : list Timestamp :=
  let lo := first_edge rule first in
  let n := (last_edge rule first last - lo) / Z.pos rule in
  map (fun i => lo + Z.of_nat i * Z.pos rule) (seq 0 (Z.to_nat n)).

Definition in_bin {B : Type} (rule : positive) (edge : Timestamp)
  (r : Timestamp * B) : bool :=
  (edge <=? fst r) && (fst r <? edge + Z.pos rule).

Fixpoint first_valid {V : Type} (l : list (option V)) : option V :=
  match l with
  | [] => None
  | Some v :: _ => Some v
  | None :: l' => first_valid l'
  end.

Definition group_first {V : Type} (n : nat)
  (group : list (Timestamp * list (option V))) : list (option V) :=
  map (fun j => first_valid (column j group)) (seq 0 n).

Definition resample_first {V : Type} (rule : positive) (X : DataFrame V)
  : DataFrame V :=
  let sorted := sort_index (rows X) in
  match sorted with
  | [] => mk_DataFrame (n_columns X) []
  | r0 :: _ =>
      let labels := bin_labels rule (fst r0) (fst (last sorted r0)) in
      mk_DataFrame (n_columns X)
        (map (fun edge =>
                (edge, group_first (n_columns X)
                         (filter (in_bin rule edge) sorted)))
             labels)
  end.

Close Scope Z_scope.

(** ** Resampler *)

(** The values of the [dict] that [Resampler.get_params] returns. *)
Inductive param_value : Type :=
| PStr (s : string)
| PFreq (rule : positive)
| PTimes (l : list time)
| PBool (b : bool).

Module Resampler.

(** An instance: the four constructor arguments, and the two attributes
    [fit] sets ([None] until then).  [sampling_period] holds the length in
    nanoseconds of the frequency string: ['2h'] is [hours 2]. *)
Record t : Type := mk {
  sampling_type : string;
  sampling_period : positive;
  sampling_times : list time;
  remove_weekends : bool;
  _n_features : option nat;
  _is_fitted : option bool
}.

Definition valid_sampling_types : list string := ["periodic"; "fixed"].

(** [sampling_times=None] stands for [[dt.time(0, 0, 0)]]. *)
Definition __init__ (sampling_type : string) (sampling_period : positive)
  (sampling_times : option (list time)) (remove_weekends : bool) : t :=
  let sampling_times :=
    match sampling_times with
    | None => [mk_time 0 0 0 0]
    | Some l => l
    end in
  mk sampling_type sampling_period sampling_times remove_weekends None None.

(** The constructor with all its defaults. *)
Definition default : t := __init__ "periodic" (hours 2) None true.

Definition _validate_params (sampling_type : string) : result unit :=
  if negb (list_in sampling_type valid_sampling_types)
  then Raise (ValueError (format_s "The sampling type "
                                   " is not supported" sampling_type))
  else Ok tt.

Definition fit {V : Type} (self : t) (X : DataFrame V) : result t :=
  _validate_params (sampling_type self) ;;;
  Ok (mk (sampling_type self) (sampling_period self) (sampling_times self)
         (remove_weekends self) (Some (n_columns X)) (Some true)).

(** The first [if] of [transform]: the sampling step. *)
Definition sample {V : Type} (self : t) (X : DataFrame V) : DataFrame V :=
  if sampling_type self =? "periodic"
  then resample_first (sampling_period self) X
  else if sampling_type self =? "fixed"
  then iloc_mask X (np_isin (map time_of (index X)) (sampling_times self))
  else X.

(** The second [if] of [transform]: the weekend filter. *)
Definition drop_weekends {V : Type} (self : t) (X : DataFrame V)
  : DataFrame V :=
  if remove_weekends self
  then iloc_mask X (map (fun ts => (dayofweek ts <? 5)%Z) (index X))
  else X.

(** [self._n_features] *)
Definition get_n_features (self : t) : result nat :=
  match _n_features self with
  | Some n => Ok n
  | None => Raise AttributeError
  end.

Definition transform {V : Type} (self : t) (X : DataFrame V)
  : result (ndarray (option V)) :=
  check_is_fitted (_is_fitted self) ;;;
  let X := sample self X in
  let X := drop_weekends self X in
  column_0 <- iloc_column_0 X ;;
  n <- get_n_features self ;;
  reshape_rows n column_0.

(** [TransformerMixin.fit_transform]: [self.fit(X).transform(X)]. *)
Definition fit_transform {V : Type} (self : t) (X : DataFrame V)
  : result (ndarray (option V)) :=
  self' <- fit self X ;;
  transform self' X.

(** [get_params]: the parameter names with their values, in the order of
    the [dict] literal; [deep] is not used. *)
Definition get_params (self : t) : list (string * param_value) :=
  [("sampling_type", PStr (sampling_type self));
   ("sampling_period", PFreq (sampling_period self));
   ("sampling_times", PTimes (sampling_times self));
   ("remove_weekends", PBool (remove_weekends self))].

(** The frame [transform] takes the first column of: the input after the
    sampling step and the weekend filter. *)
Definition sampled {V : Type} (self : t) (X : DataFrame V) : DataFrame V :=
  drop_weekends self (sample self X).

End Resampler.

(** ** Rows in time order

    [earlier] orders two rows by their index entries; [on_snd] changes
    what a row holds and keeps its index entry. *)

Definition earlier {B : Type} (a b : Timestamp * B) : Prop :=
  (fst a <= fst b)%Z.

Definition on_snd {B C : Type} (f : B -> C) (r : Timestamp * B)
  : Timestamp * C :=
  (fst r, f (snd r)).

(** [regular_from p lo l]: the rows of [l] are at [lo], [lo + p],
    [lo + 2p], ... in this order. *)
Fixpoint regular_from {B : Type} (p lo : Z) (l : list (Timestamp * B))
  : Prop :=
  match l with
  | [] => True
  | r :: l' => fst r = lo /\ regular_from p (lo + p)%Z l'
  end.

(** ** The first column with its index

    [first_column_view] pairs every index entry with the value of column
    0; [resample_view] is [resample(rule).first()] on such a column. *)

Definition first_column_view {V : Type}
  (l : list (Timestamp * list (option V))) : list (Timestamp * option V) :=
  map (fun r => (fst r, nth 0 (snd r) None)) l.

Definition resample_view {V : Type} (rule : positive)
  (v : list (Timestamp * option V)) : list (Timestamp * option V) :=
  match sort_index v with
  | [] => []
  | r0 :: _ =>
      map (fun edge =>
             (edge, first_valid
                      (map snd (filter (in_bin rule edge) (sort_index v)))))
          (bin_labels rule (fst r0) (fst (last (sort_index v) r0)))
  end.

(** The first column of the frame [transform] reshapes, from the first
    column of its input. *)
Definition sampled_view {V : Type} (self : Resampler.t)
  (v : list (Timestamp * option V)) : list (Timestamp * option V) :=
  let v :=
    if (Resampler.sampling_type self =? "periodic")%string
    then resample_view (Resampler.sampling_period self) v
    else if (Resampler.sampling_type self =? "fixed")%string
    then filter (fun r => existsb (time_eqb (time_of (fst r)))
                                  (Resampler.sampling_times self)) v
    else v in
  if Resampler.remove_weekends self
  then filter (fun r => (dayofweek (fst r) <? 5)%Z) v
  else v.

(** ** Example inputs *)

(** One column holding the hour, every hour of Monday 2019-01-07. *)
Definition hourly_day : DataFrame Z :=
  mk_DataFrame 1
    (map (fun h => (datetime 2019 1 7 (Z.of_nat h) 0 0, [Some (Z.of_nat h)]))
         (seq 0 24)).

(** One column holding the day number, at midnight of the fourteen days
    from Monday 2019-01-07 to Sunday 2019-01-20. *)
Definition two_weeks : DataFrame Z :=
  mk_DataFrame 1
    (map (fun d => (datetime 2019 1 (7 + Z.of_nat d) 0 0 0,
                    [Some (Z.of_nat d)]))
         (seq 0 14)).

(** Two rows five hours apart, at 01:00 and 06:00. *)
Definition two_rows_apart : DataFrame Z :=
  mk_DataFrame 1
    [(datetime 2019 1 7 1 0 0, [Some 1%Z]);
     (datetime 2019 1 7 6 0 0, [Some 2%Z])].

(** Two rows in the same two hours, the first with a missing value. *)
Definition missing_value : DataFrame Z :=
  mk_DataFrame 2
    [(datetime 2019 1 7 1 0 0, [Some 1%Z; None]);
     (datetime 2019 1 7 1 30 0, [Some 2%Z; Some 5%Z])].

(** A frame with one row and no column, and frames without rows. *)
Definition no_column : DataFrame Z :=
  mk_DataFrame 0 [(datetime 2019 1 7 0 0 0, [])].

Definition no_row (n : nat) : DataFrame Z := mk_DataFrame n [].

(** * Properties *)

(** ** Lists *)

Section ListFacts.

Context {A B C : Type}.

Lemma nth_error_map2 (f : A -> B -> C) (l1 : list A) (l2 : list B) (i : nat) :
  nth_error (map2 f l1 l2) i =
  match nth_error l1 i, nth_error l2 i with
  | Some a, Some b => Some (f a b)
  | _, _ => None
  end.
Proof.
  revert l2 i.
  induction l1 as [|a l1 IH]; intros [|b l2] [|i]; simpl; try reflexivity.
  - destruct (nth_error l1 i); reflexivity.
  - apply IH.
Qed.

Lemma length_map2 (f : A -> B -> C) (l1 : list A) (l2 : list B) :
  length (map2 f l1 l2) = Nat.min (length l1) (length l2).
Proof.
  revert l2.
  induction l1 as [|a l1 IH]; intros [|b l2]; simpl; auto.
Qed.

Lemma nth_error_tl (l : list A) (i : nat) :
  nth_error (tl l) i = nth_error l (S i).
Proof. destruct l; [destruct i|]; reflexivity. Qed.

Lemma length_butlast (l : list A) : length (removelast l) = (length l - 1)%nat.
Proof.
  induction l as [|a [|b l] IH]; try reflexivity.
  change (S (length (removelast (b :: l))) = (length (a :: b :: l) - 1)%nat).
  rewrite IH. simpl. lia.
Qed.

Lemma nth_error_butlast (l : list A) (i : nat) :
  (S i < length l)%nat -> nth_error (removelast l) i = nth_error l i.
Proof.
  revert i.
  induction l as [|a [|b l] IH]; intros i Hi; simpl in Hi; try lia.
  destruct i as [|i]; [reflexivity|].
  change (nth_error (removelast (b :: l)) i = nth_error (b :: l) i).
  apply IH. simpl. lia.
Qed.

Lemma Forall_tl (P : A -> Prop) (l : list A) : Forall P l -> Forall P (tl l).
Proof. intros H. destruct H; [constructor | assumption]. Qed.

Lemma Forall_butlast (P : A -> Prop) (l : list A) :
  Forall P l -> Forall P (removelast l).
Proof.
  induction 1 as [|a l Ha Hl IH]; [constructor|].
  destruct l as [|b l]; [constructor|].
  change (Forall P (a :: removelast (b :: l))). constructor; assumption.
Qed.

Lemma Forall_map2 (P : A -> Prop) (Q : B -> Prop) (R : C -> Prop)
  (f : A -> B -> C) (l1 : list A) (l2 : list B) :
  (forall a b, P a -> Q b -> R (f a b)) ->
  Forall P l1 -> Forall Q l2 -> Forall R (map2 f l1 l2).
Proof.
  intros Hf H1. revert l2.
  induction H1 as [|a l1 Ha Hl IH]; intros l2 H2; [constructor|].
  destruct H2 as [|b l2 Hb H2]; constructor; auto.
Qed.

End ListFacts.

(** ** Arrays *)

Section ArrayFacts.

Context {A : Type}.

Lemma item_elementwise (f : A -> A -> A) (X Y : ndarray A) (t j : nat) :
  item (elementwise f X Y) t j =
  match item X t j, item Y t j with
  | Some a, Some b => Some (f a b)
  | _, _ => None
  end.
Proof.
  unfold item, elementwise. simpl. rewrite nth_error_map2.
  destruct (nth_error (data X) t) as [r1|]; [|reflexivity].
  destruct (nth_error (data Y) t) as [r2|].
  - apply nth_error_map2.
  - destruct (nth_error r1 j); reflexivity.
Qed.

Lemma item_rows_from_1 (X : ndarray A) (t j : nat) :
  item (rows_from_1 X) t j = item X (S t) j.
Proof. unfold item, rows_from_1. simpl. now rewrite nth_error_tl. Qed.

Lemma item_rows_to_last (X : ndarray A) (t j : nat) :
  (S t < n_rows X)%nat -> item (rows_to_last X) t j = item X t j.
Proof.
  intros H. unfold item, rows_to_last. simpl.
  now rewrite nth_error_butlast.
Qed.

Lemma item_defined (X : ndarray A) (t j : nat) :
  well_shaped X -> (t < n_rows X)%nat -> (j < n_cols X)%nat ->
  exists a, item X t j = Some a.
Proof.
  unfold well_shaped, n_rows, item. intros Hw Ht Hj.
  destruct (nth_error (data X) t) as [r|] eqn:E.
  - assert (Hr : length r = n_cols X).
    { rewrite Forall_forall in Hw. apply Hw. eapply nth_error_In; eauto. }
    destruct (nth_error r j) as [a|] eqn:E'; [eauto|].
    apply nth_error_None in E'. lia.
  - apply nth_error_None in E. lia.
Qed.

Lemma well_shaped_elementwise (f : A -> A -> A) (X Y : ndarray A) :
  well_shaped X -> well_shaped Y -> n_cols Y = n_cols X ->
  well_shaped (elementwise f X Y).
Proof.
  unfold well_shaped, elementwise. simpl. intros HX HY E. rewrite E in HY.
  eapply Forall_map2; [|exact HX|exact HY].
  simpl. intros r1 r2 H1 H2. rewrite length_map2. lia.
Qed.

Lemma well_shaped_rows_from_1 (X : ndarray A) :
  well_shaped X -> well_shaped (rows_from_1 X).
Proof. unfold well_shaped. simpl. apply Forall_tl. Qed.

Lemma well_shaped_rows_to_last (X : ndarray A) :
  well_shaped X -> well_shaped (rows_to_last X).
Proof. unfold well_shaped. simpl. apply Forall_butlast. Qed.

End ArrayFacts.

(** ** Python strings *)

Lemma list_in_spec (x : string) (l : list string) :
  list_in x l = true <-> In x l.
Proof.
  unfold list_in. rewrite existsb_exists. split.
  - intros (y & Hy & E). apply String.eqb_eq in E. now subst.
  - intros H. exists x. split; [assumption | apply String.eqb_refl].
Qed.

Lemma prefix_app (s t : string) : String.prefix s (s ++ t)%string = true.
Proof.
  induction s as [|c s IH]; simpl; [now destruct t|].
  destruct (ascii_dec c c); [assumption | congruence].
Qed.

Lemma str_in_app_r (s t : string) : str_in s (s ++ t)%string = true.
Proof.
  destruct s as [|c s]; [now destruct t|].
  change (str_in (String c s) (String c s ++ t)%string)
    with (String.prefix (String c s) (String c s ++ t)%string
          || str_in (String c s) (s ++ t)%string).
  now rewrite prefix_app.
Qed.

Lemma str_in_app_l (s pre t : string) :
  str_in s t = true -> str_in s (pre ++ t)%string = true.
Proof.
  intros H. induction pre as [|c pre IH]; [exact H|].
  change (String.prefix s (String c (pre ++ t)%string)
          || str_in s (pre ++ t)%string = true).
  rewrite IH. apply orb_true_r.
Qed.

Lemma format_s_names (before after v : string) :
  str_in v (format_s before after v) = true.
Proof. unfold format_s. apply str_in_app_l, str_in_app_r. Qed.

(** ** Stationarizer *)

Module StationarizerFacts.
Import Stationarizer.

Lemma stationarizer_validate_ok (s : string) :
  _validate_params s = Ok tt <-> In s valid_stationarization_types.
Proof.
  unfold _validate_params. rewrite <- list_in_spec.
  destruct (list_in s valid_stationarization_types); simpl;
    split; intros H; congruence.
Qed.

Lemma stationarizer_validate_raise (s : string) :
  ~ In s valid_stationarization_types ->
  _validate_params s
  = Raise (ValueError (format_s "The transformation type "
                                " is not supported" s)).
Proof.
  unfold _validate_params. rewrite <- list_in_spec.
  destruct (list_in s valid_stationarization_types); simpl; congruence.
Qed.

Lemma stationarizer_fit_inv {F : Type} (self self' : t) (X : ndarray F) :
  fit self X = Ok self' ->
  In (stationarization_type self) valid_stationarization_types
  /\ self' = mk (stationarization_type self) (Some true).
Proof.
  unfold fit. intros H.
  destruct (_validate_params (stationarization_type self)) as [[]|e] eqn:E;
    simpl in H; [|discriminate].
  apply stationarizer_validate_ok in E. split; [assumption | congruence].
Qed.

Section Returns.

Context {F : Type} {N : Numeric F}.

Lemma n_rows_returns_of (X : ndarray F) :
  n_rows (returns_of X) = (n_rows X - 1)%nat.
Proof.
  unfold returns_of, np_diff, elementwise, rows_from_1, rows_to_last, n_rows.
  simpl. rewrite !length_map2, length_butlast.
  destruct (data X); simpl; lia.
Qed.

Lemma well_shaped_returns_of (X : ndarray F) :
  well_shaped X -> well_shaped (returns_of X).
Proof.
  intros H. unfold returns_of, np_diff.
  repeat first [ apply well_shaped_elementwise
               | apply well_shaped_rows_from_1
               | apply well_shaped_rows_to_last
               | assumption | reflexivity ].
Qed.

Lemma item_returns_of (X : ndarray F) (t j : nat) :
  (S t < n_rows X)%nat ->
  item (returns_of X) t j =
  match item X (S t) j, item X t j with
  | Some a, Some b => Some (true_divide (subtract a b) a)
  | _, _ => None
  end.
Proof.
  intros H. unfold returns_of, np_diff.
  rewrite !item_elementwise, item_rows_from_1, item_rows_to_last by assumption.
  destruct (item X (S t) j), (item X t j); reflexivity.
Qed.

Lemma item_np_log (X : ndarray F) (t j : nat) :
  item (np_log X) t j = option_map log (item X t j).
Proof.
  unfold item, np_log. simpl. rewrite nth_error_map.
  destruct (nth_error (data X) t) as [r|]; simpl; [|reflexivity].
  apply nth_error_map.
Qed.

Lemma well_shaped_np_log (X : ndarray F) :
  well_shaped X -> well_shaped (np_log X).
Proof.
  unfold well_shaped, np_log. simpl. intros H.
  apply Forall_map. eapply Forall_impl; [|exact H].
  simpl. intros r Hr. now rewrite length_map.
Qed.

Lemma n_rows_np_log (X : ndarray F) : n_rows (np_log X) = n_rows X.
Proof. unfold n_rows, np_log. simpl. apply length_map. Qed.

(** What [transform] returns on a fitted instance, by type. *)
Lemma transform_return (self : t) (X : ndarray F) :
  _is_fitted self <> None -> stationarization_type self = "return" ->
  transform self X = Ok (returns_of X).
Proof.
  intros Hf Ht. unfold transform. rewrite Ht.
  destruct (_is_fitted self); [reflexivity | congruence].
Qed.

Lemma transform_log_return (self : t) (X : ndarray F) :
  _is_fitted self <> None -> stationarization_type self = "log-return" ->
  transform self X = Ok (np_log (returns_of X)).
Proof.
  intros Hf Ht. unfold transform. rewrite Ht.
  destruct (_is_fitted self); [reflexivity | congruence].
Qed.

End Returns.

End StationarizerFacts.

(** ** Resampler *)

Module ResamplerFacts.
Import Resampler.

Lemma resampler_validate_ok (s : string) :
  _validate_params s = Ok tt <-> In s valid_sampling_types.
Proof.
  unfold _validate_params. rewrite <- list_in_spec.
  destruct (list_in s valid_sampling_types); simpl;
    split; intros H; congruence.
Qed.

Lemma resampler_validate_raise (s : string) :
  ~ In s valid_sampling_types ->
  _validate_params s
  = Raise (ValueError (format_s "The sampling type " " is not supported" s)).
Proof.
  unfold _validate_params. rewrite <- list_in_spec.
  destruct (list_in s valid_sampling_types); simpl; congruence.
Qed.

Lemma resampler_fit_inv {V : Type} (self self' : t) (X : DataFrame V) :
  fit self X = Ok self' ->
  In (sampling_type self) valid_sampling_types
  /\ self' = mk (sampling_type self) (sampling_period self)
               (sampling_times self) (remove_weekends self)
               (Some (n_columns X)) (Some true).
Proof.
  unfold fit. intros H.
  destruct (_validate_params (sampling_type self)) as [[]|e] eqn:E;
    simpl in H; [|discriminate].
  apply resampler_validate_ok in E. split; [assumption | congruence].
Qed.

(** [transform] on an instance that has both attributes. *)
Lemma transform_fitted {V : Type} (self : t) (X : DataFrame V) (b : bool)
  (n : nat) :
  _is_fitted self = Some b -> _n_features self = Some n ->
  transform self X =
  (column_0 <- iloc_column_0 (drop_weekends self (sample self X)) ;;
   reshape_rows n column_0).
Proof.
  intros Hf Hn. unfold transform, get_n_features. rewrite Hf, Hn. simpl.
  destruct (iloc_column_0 _); reflexivity.
Qed.

End ResamplerFacts.

(** ** Parameter validation and the fitted check *)

(** C8. A constructor keeps any type string unchecked; [fit] then raises
    a [ValueError] whose message contains the string when it is not one
    of the valid types, and returns when it is. *)
Theorem fit_validates_type :
  (forall (V : Type) (s : string) (p : positive) (times : option (list time))
          (w : bool) (X : DataFrame V),
      Resampler.sampling_type (Resampler.__init__ s p times w) = s
      /\ (~ In s Resampler.valid_sampling_types ->
          exists msg,
            Resampler.fit (Resampler.__init__ s p times w) X
            = Raise (ValueError msg)
            /\ str_in s msg = true)
      /\ (In s Resampler.valid_sampling_types ->
          returns (Resampler.fit (Resampler.__init__ s p times w) X)))
  /\ (forall (F : Type) (s : string) (X : ndarray F),
      Stationarizer.stationarization_type (Stationarizer.__init__ s) = s
      /\ (~ In s Stationarizer.valid_stationarization_types ->
          exists msg,
            Stationarizer.fit (Stationarizer.__init__ s) X
            = Raise (ValueError msg)
            /\ str_in s msg = true)
      /\ (In s Stationarizer.valid_stationarization_types ->
          returns (Stationarizer.fit (Stationarizer.__init__ s) X))).
Proof.
  split.
  - intros V s p times w X. split; [reflexivity|]. split.
    + intros Hs. apply ResamplerFacts.resampler_validate_raise in Hs.
      unfold Resampler.fit, Resampler.__init__, Resampler.sampling_type.
      rewrite Hs. eexists. split; [reflexivity | apply format_s_names].
    + intros Hs. apply ResamplerFacts.resampler_validate_ok in Hs.
      unfold Resampler.fit, Resampler.__init__, Resampler.sampling_type.
      rewrite Hs. eexists. reflexivity.
  - intros F s X. split; [reflexivity|]. split.
    + intros Hs. apply StationarizerFacts.stationarizer_validate_raise in Hs.
      unfold Stationarizer.fit, Stationarizer.__init__,
        Stationarizer.stationarization_type.
      rewrite Hs. eexists. split; [reflexivity | apply format_s_names].
    + intros Hs. apply StationarizerFacts.stationarizer_validate_ok in Hs.
      unfold Stationarizer.fit, Stationarizer.__init__,
        Stationarizer.stationarization_type.
      rewrite Hs. eexists. reflexivity.
Qed.

(** [Resampler(sampling_type='bogus').fit(X)] and
    [Stationarizer(stationarization_type='bogus').fit(X)]. *)
Lemma fit_validates_type_witness :
  (exists msg,
      Resampler.fit (Resampler.__init__ "bogus" (hours 2) None true)
                    (mk_DataFrame (V:=Z) 1 [])
      = Raise (ValueError msg) /\ str_in "bogus" msg = true)
  /\ (exists msg,
      Stationarizer.fit (Stationarizer.__init__ "bogus") (mk_ndarray (A:=Z) 1 [])
      = Raise (ValueError msg) /\ str_in "bogus" msg = true)
  /\ returns (Resampler.fit (Resampler.__init__ "fixed" (hours 2) None true)
                            (mk_DataFrame (V:=Z) 1 []))
  /\ returns (Stationarizer.fit (Stationarizer.__init__ "log-return")
                                (mk_ndarray (A:=Z) 1 [])).
Proof.
  destruct fit_validates_type as [HR HS].
  split; [|split; [|split]].
  - apply (HR Z "bogus" (hours 2) None true).
    simpl. intros [H|[H|[]]]; discriminate H.
  - apply (HS Z "bogus").
    simpl. intros [H|[H|[]]]; discriminate H.
  - apply (HR Z "fixed" (hours 2) None true). simpl. auto.
  - apply (HS Z "log-return"). simpl. auto.
Defined.

(** C9. [transform] on an instance on which [fit] was never called raises
    [NotFittedError], whatever the input; on the instance a successful
    [fit] returns it never does. *)
Theorem transform_requires_fit :
  (forall (V : Type) (s : string) (p : positive) (times : option (list time))
          (w : bool) (X : DataFrame V),
      Resampler.transform (Resampler.__init__ s p times w) X
      = Raise NotFittedError)
  /\ (forall (F : Type) (N : Numeric F) (s : string) (X : ndarray F),
      Stationarizer.transform (Stationarizer.__init__ s) X
      = Raise NotFittedError)
  /\ (forall (V V0 : Type) (self self' : Resampler.t) (X0 : DataFrame V0)
             (X : DataFrame V),
      Resampler.fit self X0 = Ok self' ->
      Resampler.transform self' X <> Raise NotFittedError)
  /\ (forall (F F0 : Type) (N : Numeric F) (self self' : Stationarizer.t)
             (X0 : ndarray F0) (X : ndarray F),
      Stationarizer.fit self X0 = Ok self' ->
      Stationarizer.transform self' X <> Raise NotFittedError).
Proof.
  split; [reflexivity|]. split; [reflexivity|]. split.
  - intros V V0 self self' X0 X Hfit.
    apply ResamplerFacts.resampler_fit_inv in Hfit as [_ ->].
    rewrite (ResamplerFacts.transform_fitted _ _ true (n_columns X0))
      by reflexivity.
    unfold iloc_column_0, reshape_rows.
    destruct (n_columns _ =? 0)%nat; simpl; [discriminate|].
    match goal with |- context [if ?c then _ else _] => destruct c end;
      discriminate.
  - intros F F0 N self self' X0 X Hfit.
    apply StationarizerFacts.stationarizer_fit_inv in Hfit as [_ ->].
    unfold Stationarizer.transform. simpl. discriminate.
Qed.

(** A fitted [Resampler] and a fitted [Stationarizer] at work. *)
Lemma transform_requires_fit_witness :
  Resampler.transform
    (Resampler.mk "fixed" (hours 2) [mk_time 0 0 0 0] true (Some 1%nat)
                  (Some true))
    (mk_DataFrame (V:=Z) 1 []) <> Raise NotFittedError
  /\ Stationarizer.transform (N:=float64 (fun x => x))
       (Stationarizer.mk "return" (Some true)) (mk_ndarray 1 [])
     <> Raise NotFittedError.
Proof.
  destruct transform_requires_fit as (_ & _ & HR & HS). split.
  - apply (HR Z Z (Resampler.__init__ "fixed" (hours 2) None true) _
              (mk_DataFrame 1 [])).
    reflexivity.
  - apply (HS float float _ (Stationarizer.__init__ "return") _
              (mk_ndarray 1 [])).
    reflexivity.
Defined.

(** ** Stationarizer: returns, log-returns and the shape of the result *)

(** C1. On a fitted ['return'] instance and an input with at least one
    row, [transform] returns the array whose row [t-1] holds, column by
    column, [(X[t] - X[t-1]) / X[t]] for [t = 1 .. n_samples-1]; the
    divisor is the later value.  The column [[1, 2, 4]] gives
    [[0.5, 0.5]]. *)
Theorem return_formula :
  (forall (F F0 : Type) (N : Numeric F) (self0 self : Stationarizer.t)
          (X0 : ndarray F0) (X : ndarray F),
      Stationarizer.fit self0 X0 = Ok self ->
      Stationarizer.stationarization_type self = "return" ->
      well_shaped X -> (1 <= n_rows X)%nat ->
      exists Y,
        Stationarizer.transform self X = Ok Y
        /\ n_rows Y = (n_rows X - 1)%nat
        /\ forall t j, (1 <= t < n_rows X)%nat -> (j < n_cols X)%nat ->
             exists a b,
               item X t j = Some a /\ item X (t - 1) j = Some b
               /\ item Y (t - 1) j = Some (true_divide (subtract a b) a))
  /\ (forall ln : float -> float,
      Stationarizer.fit_transform (N := float64 ln)
        (Stationarizer.__init__ "return")
        (mk_ndarray 1 [[1%float]; [2%float]; [4%float]])
      = Ok (mk_ndarray 1 [[0.5%float]; [0.5%float]])).
Proof.
  split.
  - intros F F0 N self0 self X0 X Hfit Htype Hw Hn.
    apply StationarizerFacts.stationarizer_fit_inv in Hfit as [_ Hself].
    exists (returns_of X). split; [|split].
    + apply StationarizerFacts.transform_return; [|assumption].
      rewrite Hself. discriminate.
    + apply StationarizerFacts.n_rows_returns_of.
    + intros t j Ht Hj.
      destruct (item_defined X t j Hw) as [a Ha]; [lia | assumption |].
      destruct (item_defined X (t - 1) j Hw) as [b Hb]; [lia | assumption |].
      exists a, b. split; [assumption|]. split; [assumption|].
      rewrite StationarizerFacts.item_returns_of by lia.
      replace (S (t - 1)) with t by lia.
      rewrite Ha, Hb. reflexivity.
  - intros ln. vm_compute. reflexivity.
Qed.

(** The returns of the real column [[1, 2, 4]], entry by entry. *)
Lemma return_formula_witness :
  exists Y,
    Stationarizer.transform (N := exact)
      (Stationarizer.mk "return" (Some true))
      (mk_ndarray 1 [[1%R]; [2%R]; [4%R]]) = Ok Y
    /\ n_rows Y = 2%nat
    /\ forall t j, (1 <= t < 3)%nat -> (j < 1)%nat ->
         exists a b,
           item (mk_ndarray 1 [[1%R]; [2%R]; [4%R]]) t j = Some a
           /\ item (mk_ndarray 1 [[1%R]; [2%R]; [4%R]]) (t - 1) j = Some b
           /\ item Y (t - 1) j = Some ((a - b) / a)%R.
Proof.
  apply (proj1 return_formula R R exact (Stationarizer.__init__ "return")
               (Stationarizer.mk "return" (Some true))
               (mk_ndarray 1 []) (mk_ndarray 1 [[1%R]; [2%R]; [4%R]])).
  - reflexivity.
  - reflexivity.
  - repeat constructor.
  - unfold n_rows. simpl. lia.
Defined.

(** C4, as stated, fails on an input without rows: the result has no rows
    either, not one fewer. *)
Lemma shape_law_fails_without_rows :
  exists Y,
    Stationarizer.fit_transform (N := exact) (Stationarizer.__init__ "return")
      (mk_ndarray 2 []) = Ok Y
    /\ well_shaped (mk_ndarray (A := R) 2 [])
    /\ shape (mk_ndarray (A := R) 2 []) = (0%nat, 2%nat)
    /\ shape Y = (0%nat, 2%nat)
    /\ S (n_rows Y) <> n_rows (mk_ndarray (A := R) 2 []).
Proof.
  eexists. split; [reflexivity|].
  split; [constructor|]. split; [reflexivity|]. split; [reflexivity|].
  unfold n_rows. simpl. lia.
Qed.

(** C4, amended. On a fitted instance [transform] always returns; the
    result has the columns of the input and its rows but one when the
    input has at least one row, and no rows when it has none. *)
Theorem shape_law :
  forall (F F0 : Type) (N : Numeric F) (self0 self : Stationarizer.t)
         (X0 : ndarray F0) (X : ndarray F),
    Stationarizer.fit self0 X0 = Ok self ->
    well_shaped X ->
    exists Y,
      Stationarizer.transform self X = Ok Y
      /\ well_shaped Y
      /\ shape Y = ((n_rows X - 1)%nat, n_cols X)
      /\ ((1 <= n_rows X)%nat -> S (n_rows Y) = n_rows X)
      /\ (n_rows X = 0%nat -> n_rows Y = 0%nat).
Proof.
  intros F F0 N self0 self X0 X Hfit Hw.
  apply StationarizerFacts.stationarizer_fit_inv in Hfit as [Hvalid Hself].
  assert (Hfitted : Stationarizer._is_fitted self <> None)
    by (rewrite Hself; discriminate).
  assert (Htype : Stationarizer.stationarization_type self
                  = Stationarizer.stationarization_type self0)
    by (rewrite Hself; reflexivity).
  rewrite <- Htype in Hvalid.
  assert (Hr := StationarizerFacts.n_rows_returns_of X).
  destruct Hvalid as [E|[E|[]]]; symmetry in E.
  - exists (returns_of X).
    split; [now apply StationarizerFacts.transform_return|].
    split; [now apply StationarizerFacts.well_shaped_returns_of|].
    unfold shape. rewrite Hr.
    split; [reflexivity|]. split; lia.
  - exists (np_log (returns_of X)).
    split; [now apply StationarizerFacts.transform_log_return|].
    split; [now apply StationarizerFacts.well_shaped_np_log,
              StationarizerFacts.well_shaped_returns_of|].
    unfold shape. rewrite StationarizerFacts.n_rows_np_log, Hr.
    split; [reflexivity|]. split; lia.
Qed.

(** Three rows of two columns give two rows of two columns. *)
Lemma shape_law_witness :
  exists Y,
    Stationarizer.transform (N := exact)
      (Stationarizer.mk "log-return" (Some true))
      (mk_ndarray 2 [[1%R; 3%R]; [2%R; 5%R]; [4%R; 7%R]]) = Ok Y
    /\ well_shaped Y
    /\ shape Y = (2%nat, 2%nat).
Proof.
  destruct (shape_law R R exact (Stationarizer.__init__ "log-return")
              (Stationarizer.mk "log-return" (Some true))
              (mk_ndarray 2 [])
              (mk_ndarray 2 [[1%R; 3%R]; [2%R; 5%R]; [4%R; 7%R]]))
    as (Y & HY & Hw & Hs & _).
  - reflexivity.
  - repeat constructor.
  - exists Y. split; [exact HY|]. split; [exact Hw | exact Hs].
Defined.

(** C5. On a fitted ['log-return'] instance [transform] returns the
    logarithm, entry by entry, of what a fitted ['return'] instance
    returns: row [t-1] holds [log((X[t] - X[t-1]) / X[t])].  The column
    [[1, 2, 4]] gives [[log(0.5), log(0.5)]]. *)
Theorem log_return_formula :
  (forall (F F0 : Type) (N : Numeric F) (self0 self : Stationarizer.t)
          (X0 : ndarray F0) (X : ndarray F),
      Stationarizer.fit self0 X0 = Ok self ->
      Stationarizer.stationarization_type self = "log-return" ->
      exists Y R,
        Stationarizer.fit_transform (Stationarizer.__init__ "return") X = Ok R
        /\ Stationarizer.transform self X = Ok Y
        /\ Y = np_log R
        /\ shape Y = shape R
        /\ (forall t j, item Y t j = option_map log (item R t j))
        /\ (forall t j a b, (1 <= t < n_rows X)%nat ->
              item X t j = Some a -> item X (t - 1) j = Some b ->
              item Y (t - 1) j
              = Some (log (true_divide (subtract a b) a))))
  /\ (forall ln : float -> float,
      Stationarizer.fit_transform (N := float64 ln)
        (Stationarizer.__init__ "log-return")
        (mk_ndarray 1 [[1%float]; [2%float]; [4%float]])
      = Ok (mk_ndarray 1 [[ln 0.5%float]; [ln 0.5%float]])).
Proof.
  split.
  - intros F F0 N self0 self X0 X Hfit Htype.
    apply StationarizerFacts.stationarizer_fit_inv in Hfit as [_ Hself].
    exists (np_log (returns_of X)), (returns_of X).
    split; [reflexivity|]. split.
    { apply StationarizerFacts.transform_log_return; [|assumption].
      rewrite Hself. discriminate. }
    split; [reflexivity|]. split.
    { unfold shape. now rewrite StationarizerFacts.n_rows_np_log. }
    split; [apply StationarizerFacts.item_np_log|].
    intros t j a b Ht Ha Hb.
    rewrite StationarizerFacts.item_np_log,
      StationarizerFacts.item_returns_of by lia.
    replace (S (t - 1)) with t by lia.
    rewrite Ha, Hb. reflexivity.
  - intros ln. vm_compute. reflexivity.
Qed.

(** The log-returns of the real column [[1, 2, 4]] are [[ln(1/2), ln(1/2)]]. *)
Lemma log_return_formula_witness :
  Stationarizer.transform (N := exact)
    (Stationarizer.mk "log-return" (Some true))
    (mk_ndarray 1 [[1%R]; [2%R]; [4%R]])
  = Ok (mk_ndarray 1 [[ln (1 / 2)%R]; [ln (1 / 2)%R]]).
Proof.
  destruct (proj1 log_return_formula R R exact
              (Stationarizer.__init__ "log-return")
              (Stationarizer.mk "log-return" (Some true))
              (mk_ndarray 1 [])
              (mk_ndarray 1 [[1%R]; [2%R]; [4%R]]))
    as (Y & R0 & HR & HY & -> & _); [reflexivity | reflexivity |].
  rewrite HY. injection HR as <-.
  unfold np_log, returns_of, np_diff, elementwise, rows_from_1,
    rows_to_last. simpl.
  do 2 f_equal.
  assert (E1 : ((2 - 1) / 2 = 1 / 2)%R) by lra.
  assert (E2 : ((4 - 2) / 4 = 1 / 2)%R) by lra.
  rewrite E1, E2. reflexivity.
Defined.

(** ** Dates *)

Example epoch : datetime 1970 1 1 0 0 0 = 0%Z.
Proof. reflexivity. Qed.

(** 2019-01-07 was a Monday, 2019-01-12 a Saturday and 2019-01-13 a
    Sunday. *)
Example weekdays_2019 :
  dayofweek (datetime 2019 1 7 9 30 0) = 0%Z
  /\ dayofweek (datetime 2019 1 12 0 0 0) = 5%Z
  /\ dayofweek (datetime 2019 1 13 23 59 59) = 6%Z.
Proof. repeat split. Qed.

Example time_of_half_past_six :
  time_of (datetime 2019 1 7 6 30 15) = mk_time 6 30 15 0.
Proof. reflexivity. Qed.

(** ** Masks and filters *)

Lemma select_mask_map {A : Type} (f : A -> bool) (l : list A) :
  select_mask (map f l) l = filter f l.
Proof.
  induction l as [|a l IH]; [reflexivity|].
  simpl. rewrite IH. reflexivity.
Qed.

Lemma time_eqb_eq (a b : time) : time_eqb a b = true <-> a = b.
Proof.
  destruct a as [h m s u], b as [h' m' s' u']. unfold time_eqb. simpl.
  rewrite !andb_true_iff, !Z.eqb_eq. split.
  - intros [[[-> ->] ->] ->]. reflexivity.
  - intros E. injection E as -> -> -> ->. auto.
Qed.

Lemma dayofweek_range (ts : Timestamp) : (0 <= dayofweek ts < 7)%Z.
Proof. unfold dayofweek. apply Z.mod_pos_bound. lia. Qed.

Module SamplingFacts.
Import Resampler.

Section Frames.

Context {V : Type}.

Lemma sample_fixed (self : t) (X : DataFrame V) :
  sampling_type self = "fixed" ->
  sample self X =
  mk_DataFrame (n_columns X)
    (filter (fun r => existsb (time_eqb (time_of (fst r)))
                              (sampling_times self))
            (rows X)).
Proof.
  intros E. unfold sample. rewrite E. simpl.
  unfold iloc_mask, np_isin, index. f_equal.
  rewrite !map_map. apply select_mask_map.
Qed.

Lemma sample_periodic (self : t) (X : DataFrame V) :
  sampling_type self = "periodic" ->
  sample self X = resample_first (sampling_period self) X.
Proof. intros E. unfold sample. rewrite E. reflexivity. Qed.

Lemma drop_weekends_true (self : t) (X : DataFrame V) :
  remove_weekends self = true ->
  drop_weekends self X =
  mk_DataFrame (n_columns X)
    (filter (fun r => (dayofweek (fst r) <? 5)%Z) (rows X)).
Proof.
  intros E. unfold drop_weekends. rewrite E.
  unfold iloc_mask, index. f_equal.
  rewrite map_map. apply select_mask_map.
Qed.

Lemma n_columns_resample_first (rule : positive) (X : DataFrame V) :
  n_columns (resample_first rule X) = n_columns X.
Proof.
  unfold resample_first. destruct (sort_index (rows X)); reflexivity.
Qed.

Lemma n_columns_sample (self : t) (X : DataFrame V) :
  n_columns (sample self X) = n_columns X.
Proof.
  unfold sample.
  destruct (sampling_type self =? "periodic")%string;
    [apply n_columns_resample_first|].
  destruct (sampling_type self =? "fixed")%string; reflexivity.
Qed.

Lemma n_columns_drop_weekends (self : t) (X : DataFrame V) :
  n_columns (drop_weekends self X) = n_columns X.
Proof. unfold drop_weekends. destruct (remove_weekends self); reflexivity. Qed.

End Frames.

End SamplingFacts.

(** ** Resampler: fixed sampling and the weekend filter *)

(** C6. With [sampling_type = 'fixed'] the sampling step keeps the rows
    whose time of day is one of [sampling_times] and no other, in their
    order and as many times as they occur.  Of the 24 hourly rows of one
    day, times 06:00 and 18:00 keep the rows of 06:00 and 18:00. *)
Theorem fixed_sampling :
  (forall (V : Type) (self : Resampler.t) (X : DataFrame V),
      Resampler.sampling_type self = "fixed" ->
      exists keep : Timestamp * list (option V) -> bool,
        (forall r, keep r = true
                   <-> In (time_of (fst r)) (Resampler.sampling_times self))
        /\ rows (Resampler.sample self X) = filter keep (rows X)
        /\ n_columns (Resampler.sample self X) = n_columns X)
  /\ (forall self,
      Resampler.fit
        (Resampler.__init__ "fixed" (hours 2)
           (Some [mk_time 6 0 0 0; mk_time 18 0 0 0]) false) hourly_day
      = Ok self ->
      Resampler.sample self hourly_day
      = mk_DataFrame 1 [(datetime 2019 1 7 6 0 0, [Some 6%Z]);
                        (datetime 2019 1 7 18 0 0, [Some 18%Z])]
      /\ Resampler.transform self hourly_day
         = Ok (mk_ndarray 1 [[Some 6%Z]; [Some 18%Z]])).
Proof.
  split.
  - intros V self X E.
    exists (fun r => existsb (time_eqb (time_of (fst r)))
                             (Resampler.sampling_times self)).
    rewrite (SamplingFacts.sample_fixed self X E). simpl.
    split; [|split; reflexivity].
    intros r. rewrite existsb_exists. split.
    + intros (x & Hx & Hr). apply time_eqb_eq in Hr. now subst.
    + intros H. eexists. split; [exact H|]. now apply time_eqb_eq.
  - intros self Hfit. vm_compute in Hfit. injection Hfit as <-.
    split; vm_compute; reflexivity.
Qed.

(** The rows kept at times 06:00 and 18:00 on the hourly day. *)
Lemma fixed_sampling_witness :
  rows (Resampler.sample
          (Resampler.mk "fixed" (hours 2)
             [mk_time 6 0 0 0; mk_time 18 0 0 0] false (Some 1%nat)
             (Some true)) hourly_day)
  = [(datetime 2019 1 7 6 0 0, [Some 6%Z]);
     (datetime 2019 1 7 18 0 0, [Some 18%Z])].
Proof.
  destruct (proj1 fixed_sampling Z
              (Resampler.mk "fixed" (hours 2)
                 [mk_time 6 0 0 0; mk_time 18 0 0 0] false (Some 1%nat)
                 (Some true)) hourly_day)
    as (keep & Hkeep & Hrows & _); [reflexivity|].
  rewrite Hrows. clear Hrows.
  assert (Hk : forall r, keep r
               = existsb (time_eqb (time_of (fst r)))
                         [mk_time 6 0 0 0; mk_time 18 0 0 0]).
  { intros r. apply eq_true_iff_eq. rewrite Hkeep, existsb_exists. simpl.
    split.
    - intros H. exists (time_of (fst r)).
      split; [exact H | now apply time_eqb_eq].
    - intros (x & Hx & Hr). apply time_eqb_eq in Hr. now subst. }
  rewrite (filter_ext _ _ Hk). vm_compute. reflexivity.
Defined.

(** C7. With [remove_weekends = True] the rows of the sampled frame that
    fall on a Saturday (day 5) or a Sunday (day 6) are dropped and all
    others kept, and [transform] goes on with that frame.  Fourteen daily
    rows over two full weeks leave ten. *)
Theorem weekend_removal :
  (forall (V V0 : Type) (self0 self : Resampler.t) (X0 : DataFrame V0)
          (X : DataFrame V),
      Resampler.fit self0 X0 = Ok self ->
      Resampler.remove_weekends self = true ->
      exists keep : Timestamp * list (option V) -> bool,
        (forall r, keep r = true
                   <-> ~ (dayofweek (fst r) = 5%Z \/ dayofweek (fst r) = 6%Z))
        /\ rows (Resampler.drop_weekends self (Resampler.sample self X))
           = filter keep (rows (Resampler.sample self X))
        /\ n_columns (Resampler.drop_weekends self (Resampler.sample self X))
           = n_columns X
        /\ Resampler.transform self X
           = (column_0 <- iloc_column_0
                            (Resampler.drop_weekends self
                               (Resampler.sample self X)) ;;
              reshape_rows (n_columns X0) column_0))
  /\ (exists Y,
      Resampler.fit_transform (Resampler.__init__ "periodic" (days 1) None true)
        two_weeks = Ok Y
      /\ n_rows Y = 10%nat
      /\ Y = mk_ndarray 1
               (map (fun d => [Some d]) [0; 1; 2; 3; 4; 7; 8; 9; 10; 11]%Z)).
Proof.
  split.
  - intros V V0 self0 self X0 X Hfit Hw.
    exists (fun r => (dayofweek (fst r) <? 5)%Z).
    rewrite (SamplingFacts.drop_weekends_true self _ Hw). simpl.
    split; [|split; [reflexivity|split]].
    + intros r. rewrite Z.ltb_lt.
      pose proof (dayofweek_range (fst r)). lia.
    + apply SamplingFacts.n_columns_sample.
    + rewrite <- (SamplingFacts.drop_weekends_true self _ Hw).
      apply ResamplerFacts.resampler_fit_inv in Hfit as [_ ->].
      apply (ResamplerFacts.transform_fitted _ _ true); reflexivity.
  - eexists. split; [vm_compute; reflexivity|]. split; reflexivity.
Qed.

(** The weekend filter on the two weeks of daily rows. *)
Lemma weekend_removal_witness :
  length (rows (Resampler.drop_weekends
                  (Resampler.mk "periodic" (days 1) [mk_time 0 0 0 0] true
                                (Some 1%nat) (Some true))
                  (Resampler.sample
                     (Resampler.mk "periodic" (days 1) [mk_time 0 0 0 0] true
                                   (Some 1%nat) (Some true)) two_weeks)))
  = 10%nat.
Proof.
  destruct (proj1 weekend_removal Z Z
              (Resampler.__init__ "periodic" (days 1) None true)
              (Resampler.mk "periodic" (days 1) [mk_time 0 0 0 0] true
                            (Some 1%nat) (Some true))
              two_weeks two_weeks)
    as (keep & Hkeep & Hrows & _); [reflexivity | reflexivity |].
  rewrite Hrows. clear Hrows.
  assert (Hk : forall r : Timestamp * list (option Z),
             keep r = (dayofweek (fst r) <? 5)%Z).
  { intros r. apply eq_true_iff_eq. rewrite Hkeep, Z.ltb_lt.
    pose proof (dayofweek_range (fst r)). lia. }
  rewrite (filter_ext _ _ Hk). vm_compute. reflexivity.
Defined.

(** ** Reshaping *)

Section Reshape.

Context {A : Type}.

Lemma chunks_multiple (k : nat) :
  (0 < k)%nat ->
  forall (q fuel : nat) (l : list A),
    length l = (q * k)%nat -> (length l <= fuel)%nat ->
    length (chunks fuel k l) = q
    /\ Forall (fun r => length r = k) (chunks fuel k l)
    /\ concat (chunks fuel k l) = l.
Proof.
  intros Hk. induction q as [|q IH]; intros fuel l Hl Hfuel.
  - destruct l; [|discriminate].
    destruct fuel; simpl; auto.
  - destruct l as [|a l]; [simpl in Hl; lia|].
    destruct fuel as [|fuel]; [simpl in Hfuel; lia|].
    assert (Hs : length (skipn k (a :: l)) = (q * k)%nat)
      by (rewrite length_skipn, Hl; simpl; lia).
    assert (Hf : length (firstn k (a :: l)) = k)
      by (rewrite length_firstn, Hl; simpl; lia).
    destruct (IH fuel (skipn k (a :: l)) Hs) as (H1 & H2 & H3).
    { rewrite Hs. rewrite Hl in Hfuel. simpl in Hfuel. lia. }
    change (chunks (S fuel) k (a :: l))
      with (firstn k (a :: l) :: chunks fuel k (skipn k (a :: l))).
    split; [simpl; now rewrite H1|].
    split; [constructor; assumption|].
    change (firstn k (a :: l) ++ concat (chunks fuel k (skipn k (a :: l)))
            = a :: l).
    rewrite H3. apply firstn_skipn.
Qed.

(** [reshape((-1, k))] returns exactly when [k] is not zero and divides
    the size; the result then has [size / k] rows of [k] entries, in the
    order of the input. *)
Lemma reshape_rows_returns (k : nat) (l : list A) :
  returns (reshape_rows k l) <-> (1 <= k)%nat /\ Nat.divide k (length l).
Proof.
  unfold returns, reshape_rows.
  destruct (Nat.eqb_spec k 0) as [->|Hk]; simpl.
  - split; [intros [Y H]; discriminate | lia].
  - destruct (Nat.eqb_spec (length l mod k) 0) as [E|E]; simpl.
    + split; [|eauto]. intros _. split; [lia|].
      apply Nat.Lcm0.mod_divide. exact E.
    + split; [intros [Y H]; discriminate|].
      intros [_ H]. apply Nat.Lcm0.mod_divide in H. contradiction.
Qed.

Lemma reshape_rows_raises (k : nat) (l : list A) :
  ~ ((1 <= k)%nat /\ Nat.divide k (length l)) ->
  reshape_rows k l = Raise (ValueError "cannot reshape array").
Proof.
  intros H. unfold reshape_rows.
  destruct ((k =? 0)%nat || negb (length l mod k =? 0)%nat) eqn:E;
    [reflexivity|].
  exfalso. apply H. apply reshape_rows_returns.
  unfold returns, reshape_rows. rewrite E. eauto.
Qed.

Lemma reshape_rows_ok (k : nat) (l : list A) (Y : ndarray A) :
  reshape_rows k l = Ok Y ->
  shape Y = ((length l / k)%nat, k)
  /\ well_shaped Y
  /\ concat (data Y) = l.
Proof.
  intros H.
  assert (Hr : returns (reshape_rows k l)) by (rewrite H; red; eauto).
  apply reshape_rows_returns in Hr as [Hk [q Hq]].
  unfold reshape_rows in H.
  destruct ((k =? 0)%nat || negb (length l mod k =? 0)%nat);
    [discriminate|].
  injection H as <-.
  destruct (chunks_multiple k Hk q (length l) l Hq (le_n _))
    as (H1 & H2 & H3).
  unfold shape, n_rows, well_shaped. simpl.
  split; [|split; assumption].
  rewrite H1, Hq, Nat.div_mul by lia. reflexivity.
Qed.

End Reshape.

(** ** The first column through the sampling steps *)

Section Payload.

Context {B C : Type} (f : B -> C).

Lemma insert_row_map (r : Timestamp * B) (l : list (Timestamp * B)) :
  insert_row (on_snd f r) (map (on_snd f) l) = map (on_snd f) (insert_row r l).
Proof.
  induction l as [|r' l IH]; [reflexivity|].
  simpl. destruct (fst r <=? fst r')%Z; [reflexivity|].
  simpl. now rewrite IH.
Qed.

Lemma sort_index_map (l : list (Timestamp * B)) :
  sort_index (map (on_snd f) l) = map (on_snd f) (sort_index l).
Proof.
  induction l as [|r l IH]; [reflexivity|].
  simpl. change (fst r, f (snd r)) with (on_snd f r).
  fold (sort_index (map (on_snd f) l)). fold (sort_index l).
  rewrite IH. apply insert_row_map.
Qed.

Lemma filter_fst_map (g : Timestamp -> bool) (l : list (Timestamp * B)) :
  filter (fun r => g (fst r)) (map (on_snd f) l)
  = map (on_snd f) (filter (fun r => g (fst r)) l).
Proof.
  induction l as [|r l IH]; [reflexivity|].
  simpl. destruct (g (fst r)); simpl; now rewrite IH.
Qed.

Lemma last_map_on_snd (l : list (Timestamp * B)) (d : Timestamp * B) :
  last (map (on_snd f) l) (on_snd f d) = on_snd f (last l d).
Proof.
  induction l as [|r [|r' l] IH]; try reflexivity.
  exact IH.
Qed.

End Payload.

Section FirstColumn.

Context {V : Type}.

Lemma first_column_view_on_snd (l : list (Timestamp * list (option V))) :
  first_column_view l = map (on_snd (fun c => nth 0 c None)) l.
Proof. reflexivity. Qed.

Lemma column_0_view (l : list (Timestamp * list (option V))) :
  column 0 l = map snd (first_column_view l).
Proof. unfold column, first_column_view. now rewrite map_map. Qed.

Lemma view_filter (g : Timestamp -> bool) (l : list (Timestamp * list (option V))) :
  first_column_view (filter (fun r => g (fst r)) l)
  = filter (fun r => g (fst r)) (first_column_view l).
Proof.
  rewrite !first_column_view_on_snd. symmetry. apply filter_fst_map.
Qed.

Lemma nth_0_group_first (n : nat) (group : list (Timestamp * list (option V))) :
  (1 <= n)%nat ->
  nth 0 (group_first n group) None = first_valid (column 0 group).
Proof. intros H. destruct n; [lia | reflexivity]. Qed.

Lemma view_resample_first (rule : positive) (X : DataFrame V) :
  (1 <= n_columns X)%nat ->
  first_column_view (rows (resample_first rule X))
  = resample_view rule (first_column_view (rows X)).
Proof.
  intros Hn. unfold resample_first, resample_view.
  rewrite (first_column_view_on_snd (rows X)), sort_index_map.
  destruct (sort_index (rows X)) as [|r0 l] eqn:E; [reflexivity|].
  set (S := r0 :: l).
  change (map (on_snd (fun c : list (option V) => nth 0 c None)) S)
    with (on_snd (fun c : list (option V) => nth 0 c None) r0
          :: map (on_snd (fun c => nth 0 c None)) l) at 1.
  cbv iota beta.
  rewrite last_map_on_snd.
  unfold first_column_view. simpl rows. rewrite map_map.
  apply map_ext. intros edge. simpl fst. simpl snd.
  rewrite nth_0_group_first by assumption.
  unfold in_bin at 2.
  rewrite (filter_fst_map (fun c : list (option V) => nth 0 c None)
             (fun t => (edge <=? t)%Z && (t <? edge + Z.pos rule)%Z)).
  rewrite map_map. reflexivity.
Qed.

Lemma view_sampled (self : Resampler.t) (X : DataFrame V) :
  (1 <= n_columns X)%nat ->
  first_column_view
    (rows (Resampler.drop_weekends self (Resampler.sample self X)))
  = sampled_view self (first_column_view (rows X)).
Proof.
  intros Hn. unfold sampled_view.
  assert (Hs : first_column_view (rows (Resampler.sample self X))
               = if (Resampler.sampling_type self =? "periodic")%string
                 then resample_view (Resampler.sampling_period self)
                        (first_column_view (rows X))
                 else if (Resampler.sampling_type self =? "fixed")%string
                 then filter
                        (fun r => existsb (time_eqb (time_of (fst r)))
                                          (Resampler.sampling_times self))
                        (first_column_view (rows X))
                 else first_column_view (rows X)).
  { destruct (Resampler.sampling_type self =? "periodic")%string eqn:E1.
    - apply String.eqb_eq in E1.
      rewrite (SamplingFacts.sample_periodic self X E1).
      now apply view_resample_first.
    - destruct (Resampler.sampling_type self =? "fixed")%string eqn:E2.
      + apply String.eqb_eq in E2.
        rewrite (SamplingFacts.sample_fixed self X E2). simpl rows.
        apply (view_filter
                 (fun t => existsb (time_eqb (time_of t))
                                   (Resampler.sampling_times self))).
      + unfold Resampler.sample. now rewrite E1, E2. }
  rewrite <- Hs.
  destruct (Resampler.remove_weekends self) eqn:Ew.
  - rewrite (SamplingFacts.drop_weekends_true self _ Ew). simpl rows.
    apply (view_filter (fun t => (dayofweek t <? 5)%Z)).
  - unfold Resampler.drop_weekends. now rewrite Ew.
Qed.

Lemma iloc_column_0_ok (X : DataFrame V) :
  (1 <= n_columns X)%nat -> iloc_column_0 X = Ok (column 0 (rows X)).
Proof.
  intros H. unfold iloc_column_0.
  destruct (Nat.eqb_spec (n_columns X) 0); [lia | reflexivity].
Qed.

Lemma iloc_column_0_raises (X : DataFrame V) :
  n_columns X = 0%nat -> iloc_column_0 X = Raise IndexError.
Proof. intros H. unfold iloc_column_0. now rewrite H. Qed.

End FirstColumn.

(** ** Resampler: the reshape of the first column *)

(** C3. On a fitted instance [transform] is the reshape, to the
    [n_features] columns recorded by [fit], of column 0 of the sampled and
    filtered frame: a result has [n_features] entries in every row and its
    rows put end to end are that column.  Two inputs with the same index
    and the same first column give the same result, whatever their other
    columns hold. *)
Theorem first_column_only :
  forall (V V0 : Type) (self0 self : Resampler.t) (X0 : DataFrame V0)
         (X : DataFrame V),
    Resampler.fit self0 X0 = Ok self ->
    Resampler._n_features self = Some (n_columns X0)
    /\ Resampler.transform self X
       = (column_0 <- iloc_column_0
                        (Resampler.drop_weekends self
                           (Resampler.sample self X)) ;;
          reshape_rows (n_columns X0) column_0)
    /\ (forall Y,
           Resampler.transform self X = Ok Y ->
           n_cols Y = n_columns X0
           /\ well_shaped Y
           /\ concat (data Y)
              = column 0 (rows (Resampler.drop_weekends self
                                  (Resampler.sample self X))))
    /\ (forall X' : DataFrame V,
           (1 <= n_columns X)%nat -> (1 <= n_columns X')%nat ->
           first_column_view (rows X') = first_column_view (rows X) ->
           Resampler.transform self X' = Resampler.transform self X).
Proof.
  intros V V0 self0 self X0 X Hfit.
  apply ResamplerFacts.resampler_fit_inv in Hfit as [_ Hself].
  assert (Ht : forall Z : DataFrame V,
             Resampler.transform self Z
             = (column_0 <- iloc_column_0
                              (Resampler.drop_weekends self
                                 (Resampler.sample self Z)) ;;
                reshape_rows (n_columns X0) column_0)).
  { intros Z. apply (ResamplerFacts.transform_fitted _ _ true);
      rewrite Hself; reflexivity. }
  split; [rewrite Hself; reflexivity|].
  split; [apply Ht|]. split.
  - intros Y HY. rewrite Ht in HY.
    unfold iloc_column_0 in HY.
    destruct (n_columns _ =? 0)%nat; simpl in HY; [discriminate|].
    destruct (reshape_rows_ok _ _ _ HY) as (Hs & Hw & Hc).
    split; [|split; assumption].
    unfold shape in Hs. congruence.
  - intros X' HX HX' Hview. rewrite !Ht.
    rewrite !iloc_column_0_ok
      by now rewrite SamplingFacts.n_columns_drop_weekends,
               SamplingFacts.n_columns_sample.
    rewrite !column_0_view, !view_sampled by assumption.
    now rewrite Hview.
Qed.

(** The hours 06:00 and 18:00 of the hourly day, next to a second column
    that is ignored. *)
Lemma first_column_only_witness :
  Resampler.transform
    (Resampler.mk "fixed" (hours 2) [mk_time 6 0 0 0; mk_time 18 0 0 0]
                  false (Some 1%nat) (Some true))
    (mk_DataFrame 2 (map (fun r => (fst r, snd r ++ [None])) (rows hourly_day)))
  = Ok (mk_ndarray 1 [[Some 6%Z]; [Some 18%Z]]).
Proof.
  destruct (first_column_only Z Z
              (Resampler.__init__ "fixed" (hours 2)
                 (Some [mk_time 6 0 0 0; mk_time 18 0 0 0]) false)
              (Resampler.mk "fixed" (hours 2)
                 [mk_time 6 0 0 0; mk_time 18 0 0 0] false (Some 1%nat)
                 (Some true))
              hourly_day hourly_day)
    as (_ & _ & _ & Hsame); [reflexivity|].
  rewrite (Hsame (mk_DataFrame 2 (map (fun r => (fst r, snd r ++ [None]))
                                      (rows hourly_day)))).
  - vm_compute. reflexivity.
  - vm_compute. lia.
  - vm_compute. lia.
  - vm_compute. reflexivity.
Defined.

(** C10, as stated, fails in two ways: an input without columns makes
    [transform] raise [IndexError] though its one row is a multiple of
    [n_features = 1], and after a [fit] on a frame without columns
    [transform] raises on an input without rows though 0 is a multiple of
    [n_features = 0]. *)
Lemma reshape_condition_fails :
  (exists self,
      Resampler.fit (Resampler.__init__ "fixed" (hours 2) None false) (no_row 1)
      = Ok self
      /\ Resampler._n_features self = Some 1%nat
      /\ well_formed no_column
      /\ length (rows (Resampler.drop_weekends self
                         (Resampler.sample self no_column))) = 1%nat
      /\ Nat.divide 1 1
      /\ Resampler.transform self no_column = Raise IndexError)
  /\ (exists self,
      Resampler.fit (Resampler.__init__ "fixed" (hours 2) None false) (no_row 0)
      = Ok self
      /\ Resampler._n_features self = Some 0%nat
      /\ well_formed (no_row 1)
      /\ length (rows (Resampler.drop_weekends self
                         (Resampler.sample self (no_row 1)))) = 0%nat
      /\ Nat.divide 0 0
      /\ Resampler.transform self (no_row 1)
         = Raise (ValueError "cannot reshape array")).
Proof.
  split; eexists; (split; [reflexivity|]);
    (split; [reflexivity|]); (split; [repeat constructor|]);
    (split; [reflexivity|]); (split; [apply Nat.divide_refl|]);
    reflexivity.
Qed.

(** C10, amended. On a fitted instance with [n_features >= 1] and an
    input with at least one column, [transform] returns exactly when the
    number [m] of rows left by the sampling step and the weekend filter is
    a multiple of [n_features]; the result then has shape
    [(m / n_features, n_features)], and otherwise the reshape raises its
    [ValueError]. *)
Theorem reshape_condition :
  forall (V V0 : Type) (self0 self : Resampler.t) (X0 : DataFrame V0)
         (X : DataFrame V),
    Resampler.fit self0 X0 = Ok self ->
    (1 <= n_columns X0)%nat -> (1 <= n_columns X)%nat ->
    let m := length (rows (Resampler.drop_weekends self
                             (Resampler.sample self X))) in
    (returns (Resampler.transform self X) <-> Nat.divide (n_columns X0) m)
    /\ (forall Y, Resampler.transform self X = Ok Y ->
                  shape Y = ((m / n_columns X0)%nat, n_columns X0))
    /\ (~ Nat.divide (n_columns X0) m ->
        Resampler.transform self X
        = Raise (ValueError "cannot reshape array")).
Proof.
  intros V V0 self0 self X0 X Hfit Hk Hn m.
  apply ResamplerFacts.resampler_fit_inv in Hfit as [_ Hself].
  assert (Ht : Resampler.transform self X
               = reshape_rows (n_columns X0)
                   (column 0 (rows (Resampler.drop_weekends self
                                      (Resampler.sample self X))))).
  { rewrite (ResamplerFacts.transform_fitted self X true (n_columns X0))
      by (rewrite Hself; reflexivity).
    rewrite iloc_column_0_ok
      by now rewrite SamplingFacts.n_columns_drop_weekends,
               SamplingFacts.n_columns_sample.
    reflexivity. }
  assert (Hm : length (column 0 (rows (Resampler.drop_weekends self
                                        (Resampler.sample self X)))) = m)
    by apply length_map.
  rewrite Ht. split; [|split].
  - rewrite reshape_rows_returns, Hm. tauto.
  - intros Y HY. apply reshape_rows_ok in HY as [Hs _].
    now rewrite Hm in Hs.
  - intros Hd. apply reshape_rows_raises. rewrite Hm. tauto.
Qed.

(** Three hourly rows kept out of 24 against [n_features = 2]: the
    reshape raises. *)
Lemma reshape_condition_witness :
  Resampler.transform
    (Resampler.mk "fixed" (hours 2)
       [mk_time 6 0 0 0; mk_time 12 0 0 0; mk_time 18 0 0 0] false
       (Some 2%nat) (Some true)) hourly_day
  = Raise (ValueError "cannot reshape array").
Proof.
  apply (reshape_condition Z Z
           (Resampler.__init__ "fixed" (hours 2)
              (Some [mk_time 6 0 0 0; mk_time 12 0 0 0; mk_time 18 0 0 0])
              false)
           (Resampler.mk "fixed" (hours 2)
              [mk_time 6 0 0 0; mk_time 12 0 0 0; mk_time 18 0 0 0] false
              (Some 2%nat) (Some true))
           (no_row 2) hourly_day).
  - reflexivity.
  - simpl. lia.
  - simpl. lia.
  - intros [q Hq].
    assert (E : length (rows (Resampler.drop_weekends
                  (Resampler.mk "fixed" (hours 2)
                     [mk_time 6 0 0 0; mk_time 12 0 0 0; mk_time 18 0 0 0]
                     false (Some 2%nat) (Some true))
                  (Resampler.sample
                     (Resampler.mk "fixed" (hours 2)
                        [mk_time 6 0 0 0; mk_time 12 0 0 0;
                         mk_time 18 0 0 0]
                        false (Some 2%nat) (Some true)) hourly_day)))
                = 3%nat) by (vm_compute; reflexivity).
    rewrite E in Hq. change (n_columns (no_row 2)) with 2%nat in Hq. lia.
Defined.

(** ** Sorting the rows by time *)

Section Sorting.

Context {B : Type}.

Lemma insert_row_perm (r : Timestamp * B) (l : list (Timestamp * B)) :
  Permutation (insert_row r l) (r :: l).
Proof.
  induction l as [|r' l IH]; [apply Permutation_refl|].
  simpl. destruct (fst r <=? fst r')%Z; [apply Permutation_refl|].
  eapply perm_trans; [apply perm_skip, IH | apply perm_swap].
Qed.

Lemma sort_index_perm (l : list (Timestamp * B)) :
  Permutation (sort_index l) l.
Proof.
  induction l as [|r l IH]; [constructor|].
  eapply perm_trans; [apply insert_row_perm|].
  apply perm_skip, IH.
Qed.

Lemma insert_row_sorted (r : Timestamp * B) (l : list (Timestamp * B)) :
  StronglySorted earlier l -> StronglySorted earlier (insert_row r l).
Proof.
  induction 1 as [|r' l Hl IH Hr']; simpl; [repeat constructor|].
  destruct (Z.leb_spec (fst r) (fst r')) as [Hle|Hlt].
  - constructor; [constructor; assumption|].
    constructor; [exact Hle|].
    eapply Forall_impl; [|exact Hr'].
    unfold earlier. intros x Hx. lia.
  - constructor; [exact IH|].
    apply (Permutation_Forall (Permutation_sym (insert_row_perm r l))).
    constructor; [unfold earlier; lia | exact Hr'].
Qed.

Lemma sort_index_sorted (l : list (Timestamp * B)) :
  StronglySorted earlier (sort_index l).
Proof.
  induction l as [|r l IH]; [constructor|].
  apply insert_row_sorted, IH.
Qed.

(** Rows already in time order stay as they are. *)
Lemma sort_index_monotonic (l : list (Timestamp * B)) :
  Sorted earlier l -> sort_index l = l.
Proof.
  induction 1 as [|r l Hl IH Hr]; [reflexivity|].
  change (insert_row r (sort_index l) = r :: l). rewrite IH.
  destruct Hr as [|r' l Hr]; [reflexivity|].
  simpl. unfold earlier in Hr.
  destruct (Z.leb_spec (fst r) (fst r')); [reflexivity | lia].
Qed.

Lemma sorted_last_latest (l : list (Timestamp * B)) (d : Timestamp * B) :
  StronglySorted earlier l ->
  forall r, In r l -> (fst r <= fst (last l d))%Z.
Proof.
  induction 1 as [|r' l Hl IH Hr']; intros r Hr; [destruct Hr|].
  destruct l as [|r'' l].
  - destruct Hr as [->|[]]. simpl. lia.
  - change (fst r <= fst (last (r'' :: l) d))%Z.
    destruct Hr as [->|Hr]; [|now apply IH].
    inversion Hr'; subst. unfold earlier in *.
    specialize (IH r'' (or_introl eq_refl)). lia.
Qed.

Lemma last_in (l : list (Timestamp * B)) (r d : Timestamp * B) :
  In (last (r :: l) d) (r :: l).
Proof.
  revert r. induction l as [|r' l IH]; intros r; [now left|].
  right. apply IH.
Qed.

(** The rows in time order: the first is an earliest row of the frame and
    the last a latest one. *)
Lemma sort_index_ends (l : list (Timestamp * B)) :
  l <> [] ->
  exists r0 rest,
    sort_index l = r0 :: rest
    /\ In r0 l /\ In (last (r0 :: rest) r0) l
    /\ forall r, In r l ->
         (fst r0 <= fst r <= fst (last (r0 :: rest) r0))%Z.
Proof.
  intros Hl.
  pose proof (sort_index_perm l) as Hp.
  pose proof (sort_index_sorted l) as Hs.
  destruct (sort_index l) as [|r0 rest] eqn:E.
  - apply Permutation_nil in Hp. contradiction.
  - exists r0, rest. split; [reflexivity|].
    split; [apply (Permutation_in _ Hp); now left|].
    split; [apply (Permutation_in _ Hp), last_in|].
    intros r Hr. apply (Permutation_in _ (Permutation_sym Hp)) in Hr.
    split.
    + destruct Hr as [->|Hr]; [lia|].
      apply StronglySorted_inv in Hs as [_ Hall].
      rewrite Forall_forall in Hall. now apply Hall.
    + now apply sorted_last_latest.
Qed.

Lemma filter_sort_index_nil (g : Timestamp * B -> bool)
  (l : list (Timestamp * B)) :
  (forall r, In r l -> g r = false) -> filter g (sort_index l) = [].
Proof.
  intros H.
  destruct (filter g (sort_index l)) as [|r rest] eqn:E; [reflexivity|].
  assert (Hr : In r (filter g (sort_index l))) by (rewrite E; now left).
  apply filter_In in Hr as [Hr Hg].
  apply (Permutation_in _ (sort_index_perm l)) in Hr.
  rewrite (H r Hr) in Hg. discriminate.
Qed.

End Sorting.

(** ** The bins of [resample] *)

Section Bins.

Variable rule : positive.

Let p : Z := Z.pos rule.

Lemma first_edge_eq (first : Timestamp) :
  first_edge rule first
  = (normalize first + p * ((first - normalize first) / p))%Z.
Proof.
  unfold first_edge. fold p.
  assert (E : ((first - normalize first) mod p
               = first - normalize first
                 - p * ((first - normalize first) / p))%Z)
    by (apply Z.mod_eq; unfold p; lia).
  lia.
Qed.

Lemma last_edge_eq (first last : Timestamp) :
  last_edge rule first last
  = (normalize first + p * ((last - normalize first) / p) + p)%Z.
Proof.
  unfold last_edge. cbv zeta. fold p.
  assert (E : ((last - normalize first) mod p
               = last - normalize first
                 - p * ((last - normalize first) / p))%Z)
    by (apply Z.mod_eq; unfold p; lia).
  assert (Hb : (0 <= (last - normalize first) mod p < p)%Z)
    by (apply Z.mod_pos_bound; unfold p; lia).
  destruct (Z.gtb_spec ((last - normalize first) mod p) 0); lia.
Qed.

Lemma bin_labels_eq (first last : Timestamp) :
  (first <= last)%Z ->
  exists n : nat,
    (1 <= n)%nat
    /\ bin_labels rule first last
       = map (fun i => (first_edge rule first + Z.of_nat i * p)%Z) (seq 0 n)
    /\ (first_edge rule first + (Z.of_nat n - 1) * p <= last
        < first_edge rule first + Z.of_nat n * p)%Z.
Proof.
  intros Hle. unfold bin_labels. cbv zeta. fold p.
  set (N := normalize first).
  set (a := ((first - N) / p)%Z). set (b := ((last - N) / p)%Z).
  assert (Hp : (0 < p)%Z) by (unfold p; lia).
  assert (Hab : (a <= b)%Z) by (apply Z.div_le_mono; lia).
  assert (Hn : ((last_edge rule first last - first_edge rule first) / p
                = b + 1 - a)%Z).
  { rewrite last_edge_eq, first_edge_eq. fold N a b.
    replace (N + p * b + p - (N + p * a))%Z with ((b + 1 - a) * p)%Z by lia.
    apply Z.div_mul. lia. }
  rewrite Hn. exists (Z.to_nat (b + 1 - a)).
  split; [lia|]. split; [reflexivity|].
  rewrite first_edge_eq. fold N a.
  rewrite Z2Nat.id by lia.
  pose proof (Z.mod_pos_bound (last - N) p Hp) as Hb.
  rewrite Z.mod_eq in Hb by lia. fold b in Hb. nia.
Qed.

Lemma first_edge_bounds (first : Timestamp) :
  (first_edge rule first <= first < first_edge rule first + p)%Z.
Proof.
  unfold first_edge. fold p.
  pose proof (Z.mod_pos_bound (first - normalize first) p). lia.
Qed.

(** The first edge is a whole number of periods after midnight of its own
    day, the day of the earliest row. *)
Lemma first_edge_aligned (first : Timestamp) :
  normalize (first_edge rule first) = normalize first
  /\ ((first_edge rule first - normalize (first_edge rule first)) mod p
      = 0)%Z.
Proof.
  assert (Hp : (0 < p)%Z) by (unfold p; lia).
  assert (Hd : (0 < ns_per_day)%Z) by reflexivity.
  assert (HN : normalize (first_edge rule first) = normalize first).
  { rewrite first_edge_eq. unfold normalize at 1.
    set (N := normalize first).
    assert (HNm : (N mod ns_per_day = 0)%Z).
    { assert (E : N = (first / ns_per_day * ns_per_day)%Z).
      { unfold N, normalize.
        pose proof (Z.div_mod first ns_per_day). lia. }
      rewrite E. apply Z.mod_mul. lia. }
    assert (Ho : (0 <= first - N < ns_per_day)%Z).
    { unfold N, normalize.
      pose proof (Z.mod_pos_bound first ns_per_day Hd). lia. }
    set (a := ((first - N) / p)%Z).
    assert (Ha : (0 <= p * a <= first - N)%Z).
    { pose proof (Z.mod_pos_bound (first - N) p Hp) as Hb.
      rewrite Z.mod_eq in Hb by lia. fold a in Hb.
      assert (0 <= a)%Z by (apply Z.div_pos; lia). nia. }
    rewrite Z.add_mod, HNm, Z.add_0_l, Z.mod_mod by lia.
    rewrite (Z.mod_small (p * a)) by lia. lia. }
  split; [exact HN|].
  rewrite HN, first_edge_eq.
  replace (normalize first + p * ((first - normalize first) / p)
           - normalize first)%Z
    with (((first - normalize first) / p) * p)%Z by lia.
  apply Z.mod_mul. lia.
Qed.

End Bins.

(** ** Resampler: periodic sampling *)

Section GroupFirst.

Context {V : Type}.

Lemma length_group_first (n : nat)
  (group : list (Timestamp * list (option V))) :
  length (group_first n group) = n.
Proof. unfold group_first. now rewrite length_map, length_seq. Qed.

Lemma nth_group_first (n j : nat)
  (group : list (Timestamp * list (option V))) :
  (j < n)%nat ->
  nth j (group_first n group) None = first_valid (column j group).
Proof.
  intros Hj. unfold group_first.
  rewrite (nth_indep _ None (first_valid (column 0 group)))
    by now rewrite length_map, length_seq.
  rewrite (map_nth (fun j => first_valid (column j group)) (seq 0 n) 0%nat j).
  now rewrite seq_nth.
Qed.

Lemma group_first_nil (n : nat) : group_first (V := V) n [] = repeat None n.
Proof.
  unfold group_first. simpl.
  rewrite map_const, length_seq. reflexivity.
Qed.

(** When the first row of a bin has no missing value, it is the row of
    the bin. *)
Lemma group_first_first_row (r0 : Timestamp * list (option V))
  (rest : list (Timestamp * list (option V))) :
  Forall (fun c => c <> None) (snd r0) ->
  group_first (length (snd r0)) (r0 :: rest) = snd r0.
Proof.
  intros Hvalid.
  apply (nth_ext _ _ None None); [apply length_group_first|].
  rewrite length_group_first. intros j Hj.
  rewrite nth_group_first by assumption.
  simpl. rewrite Forall_forall in Hvalid.
  specialize (Hvalid (nth j (snd r0) None) (nth_In _ _ Hj)).
  destruct (nth j (snd r0) None); [reflexivity | congruence].
Qed.

End GroupFirst.

(** A whole number of periods after midnight of the day of the earliest
    row, at or before this row and less than a period before it: that is
    the first edge and no other time. *)
Lemma first_edge_unique (rule : positive) (first lo : Timestamp) :
  ((lo - normalize first) mod Z.pos rule = 0)%Z ->
  (lo <= first < lo + Z.pos rule)%Z ->
  lo = first_edge rule first.
Proof.
  intros Hmod Hb. rewrite first_edge_eq.
  assert (Hp : (0 < Z.pos rule)%Z) by lia.
  assert (Hlo : (lo - normalize first
                 = Z.pos rule * ((lo - normalize first) / Z.pos rule))%Z).
  { pose proof (Z.div_mod (lo - normalize first) (Z.pos rule)). lia. }
  assert (Hq : ((first - normalize first) / Z.pos rule
                = (lo - normalize first) / Z.pos rule)%Z).
  { symmetry. apply (Z.div_unique_pos _ _ _ (first - lo)); lia. }
  rewrite Hq. lia.
Qed.

(** A period of seven hours and an earliest row at 03:00 on 2019-01-08:
    the first period starts at midnight of that day, not at 21:00 of the
    day before. *)
Example first_edge_seven_hours :
  first_edge (hours 7) (datetime 2019 1 8 3 0 0) = datetime 2019 1 8 0 0 0
  /\ normalize (datetime 2019 1 7 21 0 0)
     <> normalize (datetime 2019 1 8 3 0 0).
Proof. split; [reflexivity | discriminate]. Qed.

(** C2, as stated, fails.  With rows at 01:00 and 06:00 and a period of
    two hours the result has four rows, for the periods from 00:00, 02:00,
    04:00 and 06:00: the first period starts at midnight and not at the
    first timestamp 01:00, and the periods from 02:00 and 04:00, which
    hold no row, are there with a missing value.  With a missing value in
    the first row of a period, the row of the period is none of the
    original rows. *)
Lemma periodic_sampling_keeps_empty_periods :
  (exists self,
      Resampler.fit (Resampler.__init__ "periodic" (hours 2) None false)
                    two_rows_apart = Ok self
      /\ index two_rows_apart
         = [datetime 2019 1 7 1 0 0; datetime 2019 1 7 6 0 0]
      /\ rows (Resampler.sample self two_rows_apart)
         = [(datetime 2019 1 7 0 0 0, [Some 1%Z]);
            (datetime 2019 1 7 2 0 0, [None]);
            (datetime 2019 1 7 4 0 0, [None]);
            (datetime 2019 1 7 6 0 0, [Some 2%Z])]
      /\ (forall r, In r (rows two_rows_apart) ->
                    in_bin (hours 2) (datetime 2019 1 7 2 0 0) r = false)
      /\ Resampler.transform self two_rows_apart
         = Ok (mk_ndarray 1 [[Some 1%Z]; [None]; [None]; [Some 2%Z]]))
  /\ (exists self,
      Resampler.fit (Resampler.__init__ "periodic" (hours 2) None false)
                    missing_value = Ok self
      /\ rows (Resampler.sample self missing_value)
         = [(datetime 2019 1 7 0 0 0, [Some 1%Z; Some 5%Z])]
      /\ ~ In [Some 1%Z; Some 5%Z] (map snd (rows missing_value))).
Proof.
  split; eexists; (split; [reflexivity|]).
  - split; [reflexivity|]. split; [vm_compute; reflexivity|].
    split; [|vm_compute; reflexivity].
    intros r [<-|[<-|[]]]; vm_compute; reflexivity.
  - split; [vm_compute; reflexivity|].
    simpl. intros [H|[H|[]]]; discriminate H.
Qed.

(** C2, amended.  With [sampling_type = 'periodic'] and an input with at
    least one row, the sampling step returns one row for each of [n >= 1]
    consecutive periods of length [sampling_period], labelled by their
    starts [lo, lo + p, ...]: [lo] is a whole number of periods after
    midnight of the day of the earliest row, and on that day; the first
    period holds the earliest row and the last period the latest.  The row of a period holds, column by column, the first
    value of the rows of the period, in time order, that is not missing:
    the first of these rows when it has no missing value, and missing
    values only when no row falls in the period.  An input without rows
    gives a result without rows. *)
Theorem periodic_sampling :
  forall (V : Type) (self : Resampler.t) (X : DataFrame V),
    Resampler.sampling_type self = "periodic" ->
    n_columns (Resampler.sample self X) = n_columns X
    /\ (rows X = [] -> rows (Resampler.sample self X) = [])
    /\ (Sorted earlier (rows X) -> sort_index (rows X) = rows X)
    /\ (rows X <> [] ->
        exists (lo : Timestamp) (n : nat) (r_first r_last : _),
          (1 <= n)%nat
          /\ index (Resampler.sample self X)
             = map (fun i => lo + Z.of_nat i
                                  * Z.pos (Resampler.sampling_period self))%Z
                   (seq 0 n)
          /\ ((lo - normalize lo) mod Z.pos (Resampler.sampling_period self)
              = 0)%Z
          /\ normalize lo = normalize (fst r_first)
          /\ ((lo - normalize (fst r_first))
              mod Z.pos (Resampler.sampling_period self) = 0)%Z
          /\ In r_first (rows X) /\ In r_last (rows X)
          /\ (forall r, In r (rows X) ->
                        (fst r_first <= fst r <= fst r_last)%Z)
          /\ (lo <= fst r_first
              < lo + Z.pos (Resampler.sampling_period self))%Z
          /\ (lo + (Z.of_nat n - 1) * Z.pos (Resampler.sampling_period self)
              <= fst r_last
              < lo + Z.of_nat n * Z.pos (Resampler.sampling_period self))%Z
          /\ forall edge cells,
               In (edge, cells) (rows (Resampler.sample self X)) ->
               let group :=
                 filter (in_bin (Resampler.sampling_period self) edge)
                        (sort_index (rows X)) in
               length cells = n_columns X
               /\ (forall j, (j < n_columns X)%nat ->
                             nth j cells None = first_valid (column j group))
               /\ ((forall r, In r (rows X) ->
                      in_bin (Resampler.sampling_period self) edge r = false)
                   -> cells = repeat None (n_columns X))
               /\ (forall r0 rest,
                      group = r0 :: rest ->
                      length (snd r0) = n_columns X ->
                      Forall (fun c => c <> None) (snd r0) ->
                      cells = snd r0)).
Proof.
  intros V self X Htype.
  rewrite (SamplingFacts.sample_periodic self X Htype).
  set (rule := Resampler.sampling_period self).
  split; [apply SamplingFacts.n_columns_resample_first|].
  split; [intros E; unfold resample_first; now rewrite E|].
  split; [apply sort_index_monotonic|].
  intros Hrows.
  destruct (sort_index_ends (rows X) Hrows)
    as (r0 & rest & Hsort & Hin0 & Hinl & Hends).
  destruct (bin_labels_eq rule (fst r0) (fst (last (r0 :: rest) r0)))
    as (n & Hn & Hlabels & Hlast); [apply (Hends r0 Hin0)|].
  exists (first_edge rule (fst r0)), n, r0, (last (r0 :: rest) r0).
  assert (Hres : rows (resample_first rule X)
                 = map (fun edge =>
                          (edge, group_first (n_columns X)
                                   (filter (in_bin rule edge)
                                           (sort_index (rows X)))))
                       (bin_labels rule (fst r0)
                                   (fst (last (r0 :: rest) r0)))).
  { unfold resample_first. rewrite Hsort. reflexivity. }
  split; [exact Hn|]. split.
  { unfold index. rewrite Hres, map_map. simpl. rewrite map_id.
    exact Hlabels. }
  split; [apply first_edge_aligned|].
  split; [apply first_edge_aligned|].
  split.
  { rewrite <- (proj1 (first_edge_aligned rule (fst r0))).
    apply first_edge_aligned. }
  split; [exact Hin0|]. split; [exact Hinl|]. split; [exact Hends|].
  split; [apply first_edge_bounds|]. split; [exact Hlast|].
  intros edge cells Hin group.
  rewrite Hres in Hin. apply in_map_iff in Hin as (e & He & _).
  injection He as -> <-. fold group.
  split; [apply length_group_first|].
  split; [intros j Hj; now apply nth_group_first|]. split.
  - intros Hempty. unfold group.
    rewrite (filter_sort_index_nil _ _ Hempty). apply group_first_nil.
  - intros r1 rest1 Hg Hlen Hvalid. rewrite Hg, <- Hlen.
    now apply group_first_first_row.
Qed.

(** The ten-hour periods of the hourly day: whole periods counted from
    midnight of the day of its earliest row. *)
Lemma periodic_sampling_witness :
  n_columns (Resampler.sample
               (Resampler.mk "periodic" (hours 10) [mk_time 0 0 0 0] false
                             (Some 1%nat) (Some true)) hourly_day) = 1%nat
  /\ exists (lo : Timestamp) (n : nat)
            (r_first : Timestamp * list (option Z)),
       (1 <= n)%nat
       /\ index (Resampler.sample
                   (Resampler.mk "periodic" (hours 10) [mk_time 0 0 0 0]
                                 false (Some 1%nat) (Some true)) hourly_day)
          = map (fun i => lo + Z.of_nat i * Z.pos (hours 10))%Z (seq 0 n)
       /\ ((lo - normalize lo) mod Z.pos (hours 10) = 0)%Z
       /\ normalize lo = normalize (fst r_first)
       /\ ((lo - normalize (fst r_first)) mod Z.pos (hours 10) = 0)%Z
       /\ In r_first (rows hourly_day)
       /\ (forall r, In r (rows hourly_day) -> (fst r_first <= fst r)%Z)
       /\ (lo <= fst r_first < lo + Z.pos (hours 10))%Z.
Proof.
  destruct (periodic_sampling Z
              (Resampler.mk "periodic" (hours 10) [mk_time 0 0 0 0] false
                            (Some 1%nat) (Some true)) hourly_day)
    as (Hcols & _ & _ & Hrows); [reflexivity|].
  split; [exact Hcols|].
  destruct Hrows
    as (lo & n & r1 & r2 & Hn & Hindex & Hlo & Hday & Hmid & H1 & _ & Hall
        & Hfirst & _);
    [discriminate|].
  exists lo, n, r1.
  split; [exact Hn|]. split; [exact Hindex|]. split; [exact Hlo|].
  split; [exact Hday|]. split; [exact Hmid|]. split; [exact H1|].
  split; [|exact Hfirst].
  intros r Hr. apply (Hall r Hr).
Defined.

(** * Further properties *)

(** ** Parameters and refitting *)

(** X1. [fit] leaves the parameters alone: [get_params] gives after a
    successful [fit] what it gave before, for both transformers. *)
Theorem fit_keeps_params :
  (forall (V : Type) (self self' : Resampler.t) (X : DataFrame V),
      Resampler.fit self X = Ok self' ->
      Resampler.get_params self' = Resampler.get_params self)
  /\ (forall (F : Type) (self self' : Stationarizer.t) (X : ndarray F),
      Stationarizer.fit self X = Ok self' ->
      Stationarizer.get_params self' = Stationarizer.get_params self).
Proof.
  split.
  - intros V self self' X H.
    apply ResamplerFacts.resampler_fit_inv in H as [_ ->]. reflexivity.
  - intros F self self' X H.
    apply StationarizerFacts.stationarizer_fit_inv in H as [_ ->].
    reflexivity.
Qed.

(** The parameters of a [Resampler] built with two sampling times, after
    [fit]. *)
Lemma fit_keeps_params_witness :
  Resampler.get_params
    (Resampler.mk "fixed" (hours 2) [mk_time 6 0 0 0; mk_time 18 0 0 0] false
                  (Some 1%nat) (Some true))
  = [("sampling_type", PStr "fixed");
     ("sampling_period", PFreq (hours 2));
     ("sampling_times", PTimes [mk_time 6 0 0 0; mk_time 18 0 0 0]);
     ("remove_weekends", PBool false)].
Proof.
  rewrite (proj1 fit_keeps_params Z
             (Resampler.__init__ "fixed" (hours 2)
                (Some [mk_time 6 0 0 0; mk_time 18 0 0 0]) false)
             (Resampler.mk "fixed" (hours 2)
                [mk_time 6 0 0 0; mk_time 18 0 0 0] false (Some 1%nat)
                (Some true))
             hourly_day);
    reflexivity.
Defined.

(** X2. A fitted [Resampler] can be fitted again: the second [fit] never
    raises and gives what [fit] on the new frame gives from the start, so
    [_n_features] is the column count of the last frame fitted. *)
Theorem refit_forgets :
  forall (V V' : Type) (self self1 : Resampler.t) (X1 : DataFrame V)
         (X2 : DataFrame V'),
    Resampler.fit self X1 = Ok self1 ->
    exists self2,
      Resampler.fit self1 X2 = Ok self2
      /\ Resampler.fit self X2 = Ok self2
      /\ Resampler._n_features self2 = Some (n_columns X2).
Proof.
  intros V V' self self1 X1 X2 H.
  apply ResamplerFacts.resampler_fit_inv in H as [Hvalid ->].
  apply ResamplerFacts.resampler_validate_ok in Hvalid.
  unfold Resampler.fit. simpl. rewrite Hvalid. simpl.
  eexists. split; [reflexivity|]. split; reflexivity.
Qed.

(** Fitted on one column, then on two. *)
Lemma refit_forgets_witness :
  exists self2,
    Resampler.fit
      (Resampler.mk "periodic" (hours 2) [mk_time 0 0 0 0] true (Some 1%nat)
                    (Some true)) missing_value = Ok self2
    /\ Resampler._n_features self2 = Some 2%nat.
Proof.
  destruct (refit_forgets Z Z Resampler.default
              (Resampler.mk "periodic" (hours 2) [mk_time 0 0 0 0] true
                            (Some 1%nat) (Some true))
              hourly_day missing_value eq_refl)
    as (self2 & H1 & _ & H2).
  exists self2. split; [exact H1 | exact H2].
Defined.

(** ** One feature *)

Lemma chunks_1 {A : Type} (fuel : nat) (l : list A) :
  (length l <= fuel)%nat -> chunks fuel 1 l = map (fun a => [a]) l.
Proof.
  revert l. induction fuel as [|fuel IH]; intros [|a l] H;
    simpl in *; try reflexivity; try lia.
  rewrite IH by lia. reflexivity.
Qed.

(** X3. After a [fit] on a frame with one column, [transform] returns on
    every input that has a column: the result is the first column of the
    sampled and filtered frame, one value per row. *)
Theorem one_feature_returns :
  forall (V V0 : Type) (self0 self : Resampler.t) (X0 : DataFrame V0)
         (X : DataFrame V),
    Resampler.fit self0 X0 = Ok self ->
    n_columns X0 = 1%nat -> (1 <= n_columns X)%nat ->
    Resampler.transform self X
    = Ok (mk_ndarray 1
            (map (fun c => [c]) (column 0 (rows (Resampler.sampled self X))))).
Proof.
  intros V V0 self0 self X0 X Hfit H1 Hn.
  apply ResamplerFacts.resampler_fit_inv in Hfit as [_ Hself].
  rewrite (ResamplerFacts.transform_fitted self X true 1)
    by (rewrite Hself, ?H1; reflexivity).
  fold (Resampler.sampled self X).
  rewrite iloc_column_0_ok
    by (unfold Resampler.sampled;
        now rewrite SamplingFacts.n_columns_drop_weekends,
              SamplingFacts.n_columns_sample).
  simpl. unfold reshape_rows.
  rewrite Nat.mod_1_r. simpl.
  rewrite chunks_1 by apply le_n. reflexivity.
Qed.

(** The two rows five hours apart, a period of two hours, no weekend
    filter: four rows of one value. *)
Lemma one_feature_returns_witness :
  Resampler.transform
    (Resampler.mk "periodic" (hours 2) [mk_time 0 0 0 0] false (Some 1%nat)
                  (Some true)) two_rows_apart
  = Ok (mk_ndarray 1 [[Some 1%Z]; [None]; [None]; [Some 2%Z]]).
Proof.
  rewrite (one_feature_returns Z Z
             (Resampler.__init__ "periodic" (hours 2) None false)
             (Resampler.mk "periodic" (hours 2) [mk_time 0 0 0 0] false
                           (Some 1%nat) (Some true))
             two_rows_apart two_rows_apart);
    [vm_compute; reflexivity | reflexivity | reflexivity | apply le_n].
Defined.

(** ** Fixed sampling *)

Lemma isin_In (a : time) (l : list time) :
  existsb (time_eqb a) l = true <-> In a l.
Proof.
  rewrite existsb_exists. split.
  - intros (x & Hx & E). apply time_eqb_eq in E. now subst.
  - intros H. exists a. split; [exact H | now apply time_eqb_eq].
Qed.

Lemma filter_twice {A : Type} (f : A -> bool) (l : list A) :
  filter f (filter f l) = filter f l.
Proof.
  induction l as [|a l IH]; [reflexivity|].
  simpl. destruct (f a) eqn:E; simpl; rewrite ?E, IH; reflexivity.
Qed.

Lemma filter_swap {A : Type} (f g : A -> bool) (l : list A) :
  filter f (filter g l) = filter g (filter f l).
Proof.
  induction l as [|a l IH]; [reflexivity|].
  simpl. destruct (f a) eqn:Ef, (g a) eqn:Eg; simpl;
    rewrite ?Ef, ?Eg, IH; reflexivity.
Qed.

(** X4. Only which times are in [sampling_times] matters, not their order
    or repetition: two instances that differ in [sampling_times] alone,
    with the same times in both lists, sample every frame alike and
    [transform] it alike. *)
Theorem sampling_times_as_set :
  forall (V : Type) (self : Resampler.t) (times : list time)
         (X : DataFrame V),
    (forall t, In t times <-> In t (Resampler.sampling_times self)) ->
    let self' :=
      Resampler.mk (Resampler.sampling_type self)
                   (Resampler.sampling_period self) times
                   (Resampler.remove_weekends self)
                   (Resampler._n_features self) (Resampler._is_fitted self) in
    Resampler.sample self' X = Resampler.sample self X
    /\ Resampler.transform self' X = Resampler.transform self X.
Proof.
  intros V self times X Hsame self'.
  assert (Hs : Resampler.sample self' X = Resampler.sample self X).
  { unfold Resampler.sample, self'. simpl.
    destruct (Resampler.sampling_type self =? "periodic")%string;
      [reflexivity|].
    destruct (Resampler.sampling_type self =? "fixed")%string;
      [|reflexivity].
    f_equal. unfold np_isin. apply map_ext. intros a.
    apply eq_true_iff_eq. rewrite !isin_In. apply Hsame. }
  split; [exact Hs|].
  unfold Resampler.transform. rewrite Hs. reflexivity.
Qed.

(** Times 18:00, 06:00, 18:00 sample the hourly day as 06:00, 18:00 do. *)
Lemma sampling_times_as_set_witness :
  Resampler.sample
    (Resampler.mk "fixed" (hours 2)
       [mk_time 18 0 0 0; mk_time 6 0 0 0; mk_time 18 0 0 0] false
       (Some 1%nat) (Some true)) hourly_day
  = Resampler.sample
      (Resampler.mk "fixed" (hours 2) [mk_time 6 0 0 0; mk_time 18 0 0 0]
                    false (Some 1%nat) (Some true)) hourly_day.
Proof.
  apply (sampling_times_as_set Z
           (Resampler.mk "fixed" (hours 2)
              [mk_time 6 0 0 0; mk_time 18 0 0 0] false (Some 1%nat)
              (Some true))
           [mk_time 18 0 0 0; mk_time 6 0 0 0; mk_time 18 0 0 0]
           hourly_day).
  intros t. simpl. tauto.
Defined.

(** X5. With [sampling_type = 'fixed'] the sampling step and the weekend
    filter can be exchanged, and sampling and filtering a frame that has
    been sampled and filtered gives it back. *)
Theorem fixed_sampling_idempotent :
  forall (V : Type) (self : Resampler.t) (X : DataFrame V),
    Resampler.sampling_type self = "fixed" ->
    Resampler.drop_weekends self (Resampler.sample self X)
    = Resampler.sample self (Resampler.drop_weekends self X)
    /\ Resampler.sampled self (Resampler.sampled self X)
       = Resampler.sampled self X.
Proof.
  intros V self X Hfixed. unfold Resampler.sampled.
  rewrite !(SamplingFacts.sample_fixed self _ Hfixed).
  destruct (Resampler.remove_weekends self) eqn:Ew.
  - repeat (rewrite (SamplingFacts.drop_weekends_true self _ Ew);
            simpl rows; simpl n_columns).
    split; f_equal.
    + apply filter_swap.
    + set (w := fun r : Timestamp * list (option V) =>
                  (dayofweek (fst r) <? 5)%Z).
      set (f := fun r : Timestamp * list (option V) =>
                  existsb (time_eqb (time_of (fst r)))
                          (Resampler.sampling_times self)).
      rewrite (filter_swap f w (filter f (rows X))).
      now rewrite !filter_twice.
  - unfold Resampler.drop_weekends. rewrite Ew. simpl.
    split; [reflexivity|]. f_equal. apply filter_twice.
Qed.

(** Midnight rows of the two weeks, weekends removed, once and twice. *)
Lemma fixed_sampling_idempotent_witness :
  Resampler.sampled
    (Resampler.mk "fixed" (hours 2) [mk_time 0 0 0 0] true (Some 1%nat)
                  (Some true))
    (Resampler.sampled
       (Resampler.mk "fixed" (hours 2) [mk_time 0 0 0 0] true (Some 1%nat)
                     (Some true)) two_weeks)
  = Resampler.sampled
      (Resampler.mk "fixed" (hours 2) [mk_time 0 0 0 0] true (Some 1%nat)
                    (Some true)) two_weeks.
Proof.
  apply (fixed_sampling_idempotent Z
           (Resampler.mk "fixed" (hours 2) [mk_time 0 0 0 0] true
                         (Some 1%nat) (Some true)) two_weeks).
  reflexivity.
Defined.

(** ** Periodic sampling of a frame that is regular already *)

Section Regular.

Context {B : Type}.

Variable rule : positive.

Lemma regular_from_lower (lo : Z) (l : list (Timestamp * B)) :
  regular_from (Z.pos rule) lo l ->
  forall r, In r l -> (lo <= fst r)%Z.
Proof.
  revert lo. induction l as [|r' l IH]; intros lo H r Hr; [destruct Hr|].
  destruct H as [H0 H]. destruct Hr as [->|Hr]; [lia|].
  specialize (IH _ H r Hr). lia.
Qed.

Lemma regular_from_sorted (lo : Z) (l : list (Timestamp * B)) :
  regular_from (Z.pos rule) lo l -> Sorted earlier l.
Proof.
  revert lo. induction l as [|r l IH]; intros lo H; [constructor|].
  destruct H as [H0 H]. constructor; [eapply IH; exact H|].
  destruct l as [|r' l]; constructor.
  destruct H as [H1 _]. unfold earlier. lia.
Qed.

Lemma regular_from_nth (lo : Z) (l : list (Timestamp * B)) (i : nat)
  (d : Timestamp * B) :
  regular_from (Z.pos rule) lo l -> (i < length l)%nat ->
  fst (nth i l d) = (lo + Z.of_nat i * Z.pos rule)%Z.
Proof.
  revert lo i. induction l as [|r l IH]; intros lo i H Hi;
    [simpl in Hi; lia|].
  destruct H as [H0 H]. destruct i as [|i]; [simpl; lia|].
  simpl nth. rewrite (IH _ i H) by (simpl in Hi; lia). lia.
Qed.

Lemma regular_from_last (lo : Z) (r : Timestamp * B)
  (l : list (Timestamp * B)) (d : Timestamp * B) :
  regular_from (Z.pos rule) lo (r :: l) ->
  fst (last (r :: l) d) = (lo + Z.of_nat (length l) * Z.pos rule)%Z.
Proof.
  revert lo r. induction l as [|r' l IH]; intros lo r [H0 H];
    [simpl; lia|].
  change (fst (last (r' :: l) d)
          = (lo + Z.of_nat (S (length l)) * Z.pos rule)%Z).
  rewrite (IH _ _ H). lia.
Qed.

Lemma filter_in_bin_later (edge lo : Z) (l : list (Timestamp * B)) :
  regular_from (Z.pos rule) lo l -> (edge + Z.pos rule <= lo)%Z ->
  filter (in_bin rule edge) l = [].
Proof.
  intros H Hlo.
  destruct (filter (in_bin rule edge) l) as [|r rest] eqn:E; [reflexivity|].
  assert (Hr : In r (filter (in_bin rule edge) l)) by (rewrite E; now left).
  apply filter_In in Hr as [Hr Hb].
  pose proof (regular_from_lower lo l H r Hr).
  unfold in_bin in Hb. apply andb_true_iff in Hb as [_ Hb].
  apply Z.ltb_lt in Hb. lia.
Qed.

(** The bin that starts at the time of a row holds this row and no
    other. *)
Lemma filter_in_bin_regular (lo : Z) (l : list (Timestamp * B)) (i : nat)
  (d : Timestamp * B) :
  regular_from (Z.pos rule) lo l -> (i < length l)%nat ->
  filter (in_bin rule (lo + Z.of_nat i * Z.pos rule)%Z) l = [nth i l d].
Proof.
  revert lo i. induction l as [|r l IH]; intros lo i H Hi;
    [simpl in Hi; lia|].
  destruct H as [H0 H]. destruct i as [|i].
  - assert (Hb : in_bin rule (lo + Z.of_nat 0 * Z.pos rule)%Z r = true).
    { unfold in_bin. rewrite H0. apply andb_true_iff.
      split; [apply Z.leb_le | apply Z.ltb_lt]; lia. }
    cbn [filter]. rewrite Hb. cbn [nth]. f_equal.
    apply (filter_in_bin_later _ (lo + Z.pos rule)%Z l H). lia.
  - assert (Hb : in_bin rule (lo + Z.of_nat (S i) * Z.pos rule)%Z r = false).
    { unfold in_bin. rewrite H0. apply andb_false_iff. left.
      apply Z.leb_gt. lia. }
    cbn [filter]. rewrite Hb. cbn [nth].
    replace (lo + Z.of_nat (S i) * Z.pos rule)%Z
      with (lo + Z.pos rule + Z.of_nat i * Z.pos rule)%Z by lia.
    apply IH; [exact H | simpl in Hi; lia].
Qed.

Lemma regular_from_labels (lo : Z) (g : Z -> B) (s n : nat) :
  regular_from (Z.pos rule) (lo + Z.of_nat s * Z.pos rule)%Z
    (map (fun edge => (edge, g edge))
         (map (fun i => (lo + Z.of_nat i * Z.pos rule)%Z) (seq s n))).
Proof.
  revert s. induction n as [|n IH]; intros s; [exact I|].
  split; [reflexivity|].
  replace (lo + Z.of_nat s * Z.pos rule + Z.pos rule)%Z
    with (lo + Z.of_nat (S s) * Z.pos rule)%Z by lia.
  apply IH.
Qed.

End Regular.

Lemma map_nth_all {A : Type} (l : list A) (d : A) :
  map (fun i => nth i l d) (seq 0 (length l)) = l.
Proof.
  apply (nth_ext _ _ d d); [now rewrite length_map, length_seq|].
  rewrite length_map, length_seq. intros i Hi.
  rewrite (nth_indep _ d (nth 0 l d)) by now rewrite length_map, length_seq.
  rewrite (map_nth (fun i => nth i l d) (seq 0 (length l)) 0%nat i).
  now rewrite seq_nth.
Qed.

Lemma group_first_one_row {V : Type} (r : Timestamp * list (option V)) :
  group_first (length (snd r)) [r] = snd r.
Proof.
  apply (nth_ext _ _ None None); [apply length_group_first|].
  rewrite length_group_first. intros j Hj.
  rewrite nth_group_first by assumption.
  simpl. destruct (nth j (snd r) None); reflexivity.
Qed.

(** A frame with one row per period, the first a whole number of periods
    after midnight, is what [resample(rule).first()] returns on it. *)
Lemma resample_first_regular {V : Type} (rule : positive) (lo : Timestamp)
  (X : DataFrame V) :
  rows X <> [] -> well_formed X ->
  regular_from (Z.pos rule) lo (rows X) ->
  ((lo - normalize lo) mod Z.pos rule = 0)%Z ->
  resample_first rule X = X.
Proof.
  intros Hne Hwf Hreg Halign.
  unfold resample_first.
  rewrite (sort_index_monotonic _ (regular_from_sorted rule lo _ Hreg)).
  destruct X as [c l]. simpl in *.
  destruct l as [|r0 rest] eqn:El; [congruence|]. rewrite <- El in *.
  assert (H0 : fst r0 = lo) by (rewrite El in Hreg; apply Hreg).
  assert (Hlast : fst (last l r0)
                  = (lo + Z.of_nat (length rest) * Z.pos rule)%Z)
    by (rewrite El; apply regular_from_last; rewrite <- El; exact Hreg).
  assert (Hedge : first_edge rule lo = lo)
    by (unfold first_edge; rewrite Halign; lia).
  destruct (bin_labels_eq rule (fst r0) (fst (last l r0)))
    as (n & Hn & Hlabels & Hb); [rewrite H0, Hlast; lia|].
  rewrite H0, Hlast in Hlabels, Hb. rewrite Hedge in Hlabels, Hb.
  assert (En : n = length l) by (rewrite El; simpl; nia).
  rewrite H0, Hlast, Hlabels, En. f_equal.
  rewrite map_map.
  transitivity (map (fun i => nth i l r0) (seq 0 (length l)));
    [|apply map_nth_all].
  apply map_ext_in. intros i Hi. apply in_seq in Hi.
  rewrite (filter_in_bin_regular rule lo l i r0 Hreg) by lia.
  rewrite <- (regular_from_nth rule lo l i r0 Hreg) by lia.
  assert (Hc : length (snd (nth i l r0)) = c).
  { unfold well_formed in Hwf. simpl in Hwf.
    rewrite Forall_forall in Hwf. apply Hwf, nth_In. lia. }
  rewrite <- Hc, group_first_one_row. now destruct (nth i l r0).
Qed.

Lemma resample_first_idempotent {V : Type} (rule : positive)
  (X : DataFrame V) :
  resample_first rule (resample_first rule X) = resample_first rule X.
Proof.
  destruct (sort_index (rows X)) as [|r0 rest] eqn:E.
  - assert (H : resample_first rule X = mk_DataFrame (n_columns X) [])
      by (unfold resample_first; now rewrite E).
    rewrite H. reflexivity.
  - destruct (bin_labels_eq rule (fst r0) (fst (last (r0 :: rest) r0)))
      as (n & Hn & Hlabels & _).
    { apply (sorted_last_latest (r0 :: rest) r0);
        [rewrite <- E; apply sort_index_sorted | now left]. }
    assert (Hrows : rows (resample_first rule X)
                    = map (fun edge =>
                             (edge, group_first (n_columns X)
                                      (filter (in_bin rule edge)
                                              (sort_index (rows X)))))
                          (map (fun i => (first_edge rule (fst r0)
                                          + Z.of_nat i * Z.pos rule)%Z)
                               (seq 0 n))).
    { unfold resample_first. rewrite E. cbn [rows]. now rewrite Hlabels. }
    apply (resample_first_regular rule (first_edge rule (fst r0))).
    + rewrite Hrows. destruct n; [lia | discriminate].
    + unfold well_formed. rewrite SamplingFacts.n_columns_resample_first.
      rewrite Hrows. apply Forall_forall. intros r Hr.
      apply in_map_iff in Hr as (edge & <- & _).
      apply length_group_first.
    + rewrite Hrows.
      replace (first_edge rule (fst r0))
        with (first_edge rule (fst r0) + Z.of_nat 0 * Z.pos rule)%Z at 1
        by lia.
      apply (regular_from_labels rule (first_edge rule (fst r0))
               (fun edge => group_first (n_columns X)
                              (filter (in_bin rule edge)
                                      (sort_index (rows X))))).
    + apply first_edge_aligned.
Qed.

(** X6. With [sampling_type = 'periodic'], a frame that has one row per
    period already, the first a whole number of periods after midnight,
    comes out of the sampling step as it went in; so the sampling step
    applied to its own result changes nothing. *)
Theorem periodic_sampling_idempotent :
  forall (V : Type) (self : Resampler.t) (X : DataFrame V),
    Resampler.sampling_type self = "periodic" ->
    (1 <= n_columns X)%nat ->
    (forall lo : Timestamp,
        rows X <> [] -> well_formed X ->
        regular_from (Z.pos (Resampler.sampling_period self)) lo (rows X) ->
        ((lo - normalize lo) mod Z.pos (Resampler.sampling_period self)
         = 0)%Z ->
        Resampler.sample self X = X)
    /\ Resampler.sample self (Resampler.sample self X)
       = Resampler.sample self X.
Proof.
  intros V self X Htype _.
  rewrite !(SamplingFacts.sample_periodic self _ Htype). split.
  - intros lo. apply resample_first_regular.
  - apply resample_first_idempotent.
Qed.

(** The two weeks of daily rows, sampled daily, and the two rows five
    hours apart, sampled twice every two hours. *)
Lemma periodic_sampling_idempotent_witness :
  Resampler.sample
    (Resampler.mk "periodic" (days 1) [mk_time 0 0 0 0] true (Some 1%nat)
                  (Some true)) two_weeks = two_weeks
  /\ Resampler.sample
       (Resampler.mk "periodic" (days 1) [mk_time 0 0 0 0] true (Some 1%nat)
                     (Some true))
       (Resampler.sample
          (Resampler.mk "periodic" (days 1) [mk_time 0 0 0 0] true
                        (Some 1%nat) (Some true)) two_weeks)
     = Resampler.sample
         (Resampler.mk "periodic" (days 1) [mk_time 0 0 0 0] true
                       (Some 1%nat) (Some true)) two_weeks.
Proof.
  destruct (periodic_sampling_idempotent Z
              (Resampler.mk "periodic" (days 1) [mk_time 0 0 0 0] true
                            (Some 1%nat) (Some true)) two_weeks eq_refl
              (le_n 1))
    as [Hreg Hidem].
  split; [|exact Hidem].
  apply (Hreg (datetime 2019 1 7 0 0 0)).
  - discriminate.
  - unfold well_formed, two_weeks. simpl. repeat constructor.
  - vm_compute. repeat split.
  - reflexivity.
Defined.

(** ** The values of the result *)

Lemma first_valid_In {V : Type} (l : list (option V)) (v : V) :
  first_valid l = Some v -> In (Some v) l.
Proof.
  induction l as [|[w|] l IH]; simpl; intros H; [discriminate| |].
  - left. exact H.
  - right. now apply IH.
Qed.

Lemma resample_view_values {V : Type} (rule : positive)
  (v0 : list (Timestamp * option V)) (v : V) :
  In (Some v) (map snd (resample_view rule v0)) ->
  In (Some v) (map snd v0).
Proof.
  unfold resample_view.
  destruct (sort_index v0) as [|r0 rest] eqn:E; [intros []|].
  rewrite <- E. rewrite map_map. simpl. intros H.
  apply in_map_iff in H as (edge & H & _).
  apply first_valid_In in H.
  apply in_map_iff in H as (r & Hr & Hin).
  apply filter_In in Hin as [Hin _].
  apply (Permutation_in _ (sort_index_perm v0)) in Hin.
  apply in_map_iff. exists r. split; assumption.
Qed.

Lemma sampled_view_values {V : Type} (self : Resampler.t)
  (v0 : list (Timestamp * option V)) (v : V) :
  In (Some v) (map snd (sampled_view self v0)) ->
  In (Some v) (map snd v0).
Proof.
  unfold sampled_view. intros H.
  assert (Hw : forall l : list (Timestamp * option V),
             In (Some v)
                (map snd (if Resampler.remove_weekends self
                          then filter (fun r => (dayofweek (fst r) <? 5)%Z) l
                          else l)) ->
             In (Some v) (map snd l)).
  { intros l Hl. destruct (Resampler.remove_weekends self); [|exact Hl].
    apply in_map_iff in Hl as (r & Hr & Hin).
    apply filter_In in Hin as [Hin _].
    apply in_map_iff. exists r. split; assumption. }
  apply Hw in H.
  destruct (Resampler.sampling_type self =? "periodic")%string;
    [now apply resample_view_values in H|].
  destruct (Resampler.sampling_type self =? "fixed")%string; [|exact H].
  apply in_map_iff in H as (r & Hr & Hin).
  apply filter_In in Hin as [Hin _].
  apply in_map_iff. exists r. split; assumption.
Qed.

(** X7. [transform] makes up no value: every value of its result that is
    not missing is a value of the first column of the input. *)
Theorem transform_only_selects :
  forall (V V0 : Type) (self0 self : Resampler.t) (X0 : DataFrame V0)
         (X : DataFrame V) (Y : ndarray (option V)),
    Resampler.fit self0 X0 = Ok self ->
    Resampler.transform self X = Ok Y ->
    forall (row : list (option V)) (v : V),
      In row (data Y) -> In (Some v) row ->
      In (Some v) (column 0 (rows X)).
Proof.
  intros V V0 self0 self X0 X Y Hfit HY row v Hrow Hv.
  apply ResamplerFacts.resampler_fit_inv in Hfit as [_ Hself].
  rewrite (ResamplerFacts.transform_fitted self X true (n_columns X0)) in HY
    by (rewrite Hself; reflexivity).
  unfold iloc_column_0 in HY.
  destruct (Nat.eqb_spec
              (n_columns (Resampler.drop_weekends self
                            (Resampler.sample self X))) 0) as [|Hn];
    [discriminate|].
  simpl in HY. apply reshape_rows_ok in HY as (_ & _ & Hc).
  rewrite SamplingFacts.n_columns_drop_weekends,
    SamplingFacts.n_columns_sample in Hn.
  assert (Hin : In (Some v) (concat (data Y)))
    by (apply in_concat; exists row; split; assumption).
  rewrite Hc, column_0_view, view_sampled in Hin by lia.
  rewrite column_0_view. now apply sampled_view_values in Hin.
Qed.

(** The value 2 in the last row of the result for the two rows five hours
    apart is a value of their column. *)
Lemma transform_only_selects_witness :
  In (Some 2%Z) (column 0 (rows two_rows_apart)).
Proof.
  apply (transform_only_selects Z Z
           (Resampler.__init__ "periodic" (hours 2) None false)
           (Resampler.mk "periodic" (hours 2) [mk_time 0 0 0 0] false
                         (Some 1%nat) (Some true))
           two_rows_apart two_rows_apart
           (mk_ndarray 1 [[Some 1%Z]; [None]; [None]; [Some 2%Z]])
           eq_refl)
    with (row := [Some 2%Z]).
  - vm_compute. reflexivity.
  - simpl. auto.
  - now left.
Defined.

(** ** Returns of a window *)

Section Windows.

Context {A B C : Type}.

Lemma tl_map2 (f : A -> B -> C) (l1 : list A) (l2 : list B) :
  tl (map2 f l1 l2) = map2 f (tl l1) (tl l2).
Proof.
  destruct l1 as [|a l1], l2 as [|b l2]; simpl; try reflexivity.
  now destruct l1.
Qed.

Lemma butlast_map2 (f : A -> B -> C) (l1 : list A) (l2 : list B) :
  length l1 = length l2 ->
  removelast (map2 f l1 l2) = map2 f (removelast l1) (removelast l2).
Proof.
  revert l2. induction l1 as [|a l1 IH]; intros [|b l2] H;
    simpl in H; try discriminate; [reflexivity|].
  injection H as H. specialize (IH l2 H).
  destruct l1 as [|a' l1], l2 as [|b' l2]; simpl in H; try discriminate;
    [reflexivity|].
  change (f a b :: removelast (map2 f (a' :: l1) (b' :: l2))
          = f a b :: map2 f (removelast (a' :: l1)) (removelast (b' :: l2))).
  now rewrite IH.
Qed.

Lemma tl_butlast (l : list A) : tl (removelast l) = removelast (tl l).
Proof. destruct l as [|a [|b l]]; reflexivity. Qed.

Lemma length_tl_butlast (l : list A) :
  length (tl l) = length (removelast l).
Proof. rewrite length_butlast. destruct l; simpl; lia. Qed.

Lemma butlast_map (f : A -> B) (l : list A) :
  removelast (map f l) = map f (removelast l).
Proof.
  induction l as [|a [|b l] IH]; try reflexivity.
  change (f a :: removelast (map f (b :: l))
          = f a :: map f (removelast (b :: l))).
  now rewrite IH.
Qed.

End Windows.

Section ReturnsWindows.

Context {F : Type} {N : Numeric F}.

Lemma returns_of_rows_from_1 (X : ndarray F) :
  returns_of (rows_from_1 X) = rows_from_1 (returns_of X).
Proof.
  unfold returns_of, np_diff, elementwise, rows_from_1, rows_to_last.
  simpl. f_equal.
  now rewrite !tl_map2, tl_butlast.
Qed.

Lemma returns_of_rows_to_last (X : ndarray F) :
  returns_of (rows_to_last X) = rows_to_last (returns_of X).
Proof.
  unfold returns_of, np_diff, elementwise, rows_from_1, rows_to_last.
  simpl. f_equal.
  rewrite butlast_map2
    by (rewrite length_map2, <- length_tl_butlast; apply Nat.min_id).
  rewrite butlast_map2 by apply length_tl_butlast.
  now rewrite tl_butlast.
Qed.

Lemma np_log_rows_from_1 (X : ndarray F) :
  np_log (rows_from_1 X) = rows_from_1 (np_log X).
Proof.
  unfold np_log, rows_from_1. simpl. f_equal. now destruct (data X).
Qed.

Lemma np_log_rows_to_last (X : ndarray F) :
  np_log (rows_to_last X) = rows_to_last (np_log X).
Proof.
  unfold np_log, rows_to_last. simpl. f_equal. symmetry. apply butlast_map.
Qed.

End ReturnsWindows.

(** X8. The result of a fitted [Stationarizer] follows the rows of the
    input: without the first row of the input the result loses its first
    row, and without the last row its last row. *)
Theorem transform_of_window :
  forall (F F0 : Type) (N : Numeric F) (self0 self : Stationarizer.t)
         (X0 : ndarray F0) (X Y : ndarray F),
    Stationarizer.fit self0 X0 = Ok self ->
    Stationarizer.transform self X = Ok Y ->
    Stationarizer.transform self (rows_from_1 X) = Ok (rows_from_1 Y)
    /\ Stationarizer.transform self (rows_to_last X) = Ok (rows_to_last Y).
Proof.
  intros F F0 N self0 self X0 X Y Hfit HY.
  apply StationarizerFacts.stationarizer_fit_inv in Hfit as [Hvalid Hself].
  assert (Hfitted : Stationarizer._is_fitted self <> None)
    by (rewrite Hself; discriminate).
  assert (Htype : Stationarizer.stationarization_type self
                  = Stationarizer.stationarization_type self0)
    by (rewrite Hself; reflexivity).
  rewrite <- Htype in Hvalid.
  destruct Hvalid as [E|[E|[]]]; symmetry in E.
  - rewrite (StationarizerFacts.transform_return self X Hfitted E) in HY.
    injection HY as <-.
    rewrite (StationarizerFacts.transform_return self (rows_from_1 X)
               Hfitted E),
      (StationarizerFacts.transform_return self (rows_to_last X) Hfitted E).
    now rewrite returns_of_rows_from_1, returns_of_rows_to_last.
  - rewrite (StationarizerFacts.transform_log_return self X Hfitted E) in HY.
    injection HY as <-.
    rewrite (StationarizerFacts.transform_log_return self (rows_from_1 X)
               Hfitted E),
      (StationarizerFacts.transform_log_return self (rows_to_last X)
         Hfitted E).
    now rewrite returns_of_rows_from_1, returns_of_rows_to_last,
      np_log_rows_from_1, np_log_rows_to_last.
Qed.

(** The returns of [[2, 4]] and of [[1, 2]] inside those of [[1, 2, 4]]. *)
Lemma transform_of_window_witness :
  Stationarizer.transform (N := exact)
    (Stationarizer.mk "return" (Some true))
    (rows_from_1 (mk_ndarray 1 [[1%R]; [2%R]; [4%R]]))
  = Ok (rows_from_1
          (returns_of (N := exact) (mk_ndarray 1 [[1%R]; [2%R]; [4%R]])))
  /\ Stationarizer.transform (N := exact)
       (Stationarizer.mk "return" (Some true))
       (rows_to_last (mk_ndarray 1 [[1%R]; [2%R]; [4%R]]))
     = Ok (rows_to_last
             (returns_of (N := exact) (mk_ndarray 1 [[1%R]; [2%R]; [4%R]]))).
Proof.
  apply (transform_of_window R R exact
           (Stationarizer.__init__ "return")
           (Stationarizer.mk "return" (Some true))
           (mk_ndarray 1 [])
           (mk_ndarray 1 [[1%R]; [2%R]; [4%R]])).
  - reflexivity.
  - reflexivity.
Defined.

(** ** The order of the rows *)

Section RowOrder.

Context {B : Type}.

Lemma sort_index_twice (l : list (Timestamp * B)) :
  sort_index (sort_index l) = sort_index l.
Proof.
  apply sort_index_monotonic, StronglySorted_Sorted, sort_index_sorted.
Qed.

Lemma same_time_same_row (l : list (Timestamp * B)) (a b : Timestamp * B) :
  NoDup (map fst l) -> In a l -> In b l -> fst a = fst b -> a = b.
Proof.
  induction l as [|r l IH]; intros Hnd Ha Hb E; [destruct Ha|].
  simpl in Hnd. apply NoDup_cons_iff in Hnd as [Hr Hnd].
  destruct Ha as [->|Ha], Hb as [->|Hb]; auto.
  - exfalso. apply Hr. rewrite E. now apply in_map.
  - exfalso. apply Hr. rewrite <- E. now apply in_map.
Qed.

(** Rows with distinct times have one time order only. *)
Lemma sorted_perm_unique (l l' : list (Timestamp * B)) :
  StronglySorted earlier l -> StronglySorted earlier l' ->
  Permutation l l' -> NoDup (map fst l) -> l = l'.
Proof.
  intros Hs. revert l'.
  induction Hs as [|a l Hl IH Ha]; intros l' Hs' Hp Hnd.
  - apply Permutation_nil in Hp. now subst.
  - destruct Hs' as [|b l' Hl' Hb].
    + apply Permutation_sym, Permutation_nil in Hp. discriminate.
    + assert (Hab : a = b).
      { apply (same_time_same_row (a :: l)); [exact Hnd | now left | |].
        - apply (Permutation_in _ (Permutation_sym Hp)). now left.
        - rewrite Forall_forall in Ha, Hb. unfold earlier in Ha, Hb.
          assert (Hb' : In b (a :: l))
            by (apply (Permutation_in _ (Permutation_sym Hp)); now left).
          assert (Ha' : In a (b :: l'))
            by (apply (Permutation_in _ Hp); now left).
          destruct Hb' as [->|Hb']; [reflexivity|].
          destruct Ha' as [->|Ha']; [reflexivity|].
          specialize (Ha b Hb'). specialize (Hb a Ha'). lia. }
      subst b. f_equal. apply IH; [exact Hl'| |].
      * eapply Permutation_cons_inv. exact Hp.
      * simpl in Hnd. now apply NoDup_cons_iff in Hnd as [_ Hnd].
Qed.

Lemma sort_index_of_perm (l l' : list (Timestamp * B)) :
  Permutation l' l -> NoDup (map fst l) -> sort_index l' = sort_index l.
Proof.
  intros Hp Hnd. apply sorted_perm_unique.
  - apply sort_index_sorted.
  - apply sort_index_sorted.
  - eapply perm_trans; [apply sort_index_perm|].
    eapply perm_trans; [exact Hp|]. apply Permutation_sym, sort_index_perm.
  - apply (Permutation_NoDup (l := map fst l)); [|exact Hnd].
    apply Permutation_map, Permutation_sym.
    eapply perm_trans; [apply sort_index_perm | exact Hp].
Qed.

End RowOrder.

Lemma resample_first_of_sort {V : Type} (rule : positive)
  (X X' : DataFrame V) :
  n_columns X' = n_columns X ->
  sort_index (rows X') = sort_index (rows X) ->
  resample_first rule X' = resample_first rule X.
Proof. intros Hn Hs. unfold resample_first. now rewrite Hn, Hs. Qed.

(** X9. With [sampling_type = 'periodic'] the rows are taken in time
    order, in whatever order the frame holds them: the frame with its
    rows sorted by time is sampled as the frame itself, and so is any
    frame with the same rows in another order when no two rows have the
    same time. *)
Theorem periodic_sampling_sorts :
  forall (V : Type) (self : Resampler.t) (X : DataFrame V),
    Resampler.sampling_type self = "periodic" ->
    (1 <= n_columns X)%nat ->
    Resampler.sample self
      (mk_DataFrame (n_columns X) (sort_index (rows X)))
    = Resampler.sample self X
    /\ (forall X' : DataFrame V,
           n_columns X' = n_columns X ->
           Permutation (rows X') (rows X) ->
           NoDup (index X) ->
           Resampler.sample self X' = Resampler.sample self X
           /\ Resampler.transform self X' = Resampler.transform self X).
Proof.
  intros V self X Htype _. split.
  - rewrite !(SamplingFacts.sample_periodic self _ Htype).
    apply resample_first_of_sort; [reflexivity | apply sort_index_twice].
  - intros X' Hn Hp Hnd.
    assert (Hs : Resampler.sample self X' = Resampler.sample self X).
    { rewrite !(SamplingFacts.sample_periodic self _ Htype).
      apply resample_first_of_sort; [exact Hn|].
      now apply sort_index_of_perm. }
    split; [exact Hs|].
    unfold Resampler.transform. now rewrite Hs.
Qed.

(** The two rows five hours apart, the later one first. *)
Lemma periodic_sampling_sorts_witness :
  Resampler.transform
    (Resampler.mk "periodic" (hours 2) [mk_time 0 0 0 0] false (Some 1%nat)
                  (Some true))
    (mk_DataFrame 1 [(datetime 2019 1 7 6 0 0, [Some 2%Z]);
                     (datetime 2019 1 7 1 0 0, [Some 1%Z])])
  = Resampler.transform
      (Resampler.mk "periodic" (hours 2) [mk_time 0 0 0 0] false (Some 1%nat)
                    (Some true)) two_rows_apart.
Proof.
  apply (proj2 (periodic_sampling_sorts Z
                  (Resampler.mk "periodic" (hours 2) [mk_time 0 0 0 0] false
                                (Some 1%nat) (Some true))
                  two_rows_apart eq_refl (le_n 1))
               (mk_DataFrame 1 [(datetime 2019 1 7 6 0 0, [Some 2%Z]);
                                (datetime 2019 1 7 1 0 0, [Some 1%Z])])).
  - reflexivity.
  - apply perm_swap.
  - unfold index, two_rows_apart. simpl.
    constructor; [|constructor; [intros []|constructor]].
    intros [H|[]]. vm_compute in H. discriminate H.
Defined.

(** ** Daily sampling *)

Lemma normalize_bounds (t : Timestamp) :
  (normalize t <= t < normalize t + ns_per_day)%Z.
Proof.
  unfold normalize.
  assert (H : (0 <= t mod ns_per_day < ns_per_day)%Z)
    by (apply Z.mod_pos_bound; reflexivity).
  lia.
Qed.

Lemma normalize_midnight (t : Timestamp) :
  (normalize t mod ns_per_day = 0)%Z.
Proof.
  assert (E : normalize t = (t / ns_per_day * ns_per_day)%Z).
  { unfold normalize.
    assert (Hd : (0 < ns_per_day)%Z) by reflexivity.
    pose proof (Z.div_mod t ns_per_day). lia. }
  rewrite E. apply Z.mod_mul. discriminate.
Qed.

(** The midnight at or before [t] is the midnight of the day of [t]. *)
Lemma normalize_unique (m t : Timestamp) :
  (m mod ns_per_day = 0)%Z -> (m <= t < m + ns_per_day)%Z ->
  normalize t = m.
Proof.
  intros Hm Ht. unfold normalize.
  assert (E : (t - m = t mod ns_per_day)%Z).
  { assert (Hd : (0 < ns_per_day)%Z) by reflexivity.
    apply (Z.mod_unique t ns_per_day (m / ns_per_day)); [left; lia|].
    pose proof (Z.div_mod m ns_per_day). lia. }
  lia.
Qed.

Lemma first_edge_daily (first : Timestamp) :
  first_edge (days 1) first = normalize first.
Proof.
  unfold first_edge. change (Z.pos (days 1)) with ns_per_day.
  pose proof (normalize_bounds first).
  rewrite Z.mod_small by lia. lia.
Qed.

Lemma in_bin_daily {B : Type} (edge : Timestamp) (r : Timestamp * B) :
  (edge mod ns_per_day = 0)%Z ->
  in_bin (days 1) edge r = true <-> normalize (fst r) = edge.
Proof.
  intros Hm. unfold in_bin. change (Z.pos (days 1)) with ns_per_day.
  rewrite andb_true_iff, Z.leb_le, Z.ltb_lt. split.
  - intros H. now apply normalize_unique.
  - intros <-. apply normalize_bounds.
Qed.

Lemma index_filter {V : Type} (g : Timestamp -> bool)
  (l : list (Timestamp * list (option V))) :
  map fst (filter (fun r => g (fst r)) l) = filter g (map fst l).
Proof.
  induction l as [|r l IH]; [reflexivity|].
  simpl. destruct (g (fst r)); simpl; now rewrite IH.
Qed.

(** X10. With [sampling_type = 'periodic'] and a period of one day the
    sampling step returns one row for every calendar day from the day of
    the earliest row to the day of the latest, labelled with its
    midnight; the rows of a period are the rows of that day.  The weekend
    filter then keeps the midnights of the days Monday to Friday. *)
Theorem daily_sampling_calendar :
  forall (V : Type) (self : Resampler.t) (X : DataFrame V),
    Resampler.sampling_type self = "periodic" ->
    Resampler.sampling_period self = days 1 ->
    (1 <= n_columns X)%nat ->
    rows X <> [] ->
    exists (n : nat) (r_first r_last : Timestamp * list (option V)),
      In r_first (rows X) /\ In r_last (rows X)
      /\ (forall r, In r (rows X) -> (fst r_first <= fst r <= fst r_last)%Z)
      /\ index (Resampler.sample self X)
         = map (fun i => normalize (fst r_first)
                         + Z.of_nat i * ns_per_day)%Z (seq 0 n)
      /\ (normalize (fst r_first) + (Z.of_nat n - 1) * ns_per_day
          = normalize (fst r_last))%Z
      /\ (forall (edge : Timestamp) (r : Timestamp * list (option V)),
             In edge (index (Resampler.sample self X)) ->
             (in_bin (days 1) edge r = true <-> normalize (fst r) = edge))
      /\ index (Resampler.sampled self X)
         = if Resampler.remove_weekends self
           then filter (fun t => (dayofweek t <? 5)%Z)
                       (index (Resampler.sample self X))
           else index (Resampler.sample self X).
Proof.
  intros V self X Htype Hday _ Hrows.
  destruct (sort_index_ends (rows X) Hrows)
    as (r0 & rest & Hsort & Hin0 & Hinl & Hends).
  destruct (bin_labels_eq (days 1) (fst r0) (fst (last (r0 :: rest) r0)))
    as (n & Hn & Hlabels & Hlast); [apply (Hends r0 Hin0)|].
  rewrite first_edge_daily in Hlabels, Hlast.
  change (Z.pos (days 1)) with ns_per_day in Hlabels, Hlast.
  assert (Hindex : index (Resampler.sample self X)
                   = map (fun i => normalize (fst r0)
                                   + Z.of_nat i * ns_per_day)%Z (seq 0 n)).
  { rewrite (SamplingFacts.sample_periodic self X Htype), Hday.
    unfold index, resample_first. rewrite Hsort. cbn [rows].
    rewrite map_map. simpl. rewrite map_id. exact Hlabels. }
  assert (Hmid : forall edge, In edge (index (Resampler.sample self X)) ->
                              (edge mod ns_per_day = 0)%Z).
  { intros edge He. rewrite Hindex in He.
    apply in_map_iff in He as (i & <- & _).
    rewrite Z.add_mod, normalize_midnight, Z.mod_mul by discriminate.
    reflexivity. }
  exists n, r0, (last (r0 :: rest) r0).
  split; [exact Hin0|]. split; [exact Hinl|]. split; [exact Hends|].
  split; [exact Hindex|]. split.
  { symmetry. apply normalize_unique; [|lia].
    rewrite Z.add_mod, normalize_midnight, Z.mod_mul by discriminate.
    reflexivity. }
  split.
  { intros edge r He. apply in_bin_daily. now apply Hmid. }
  unfold Resampler.sampled, Resampler.drop_weekends.
  destruct (Resampler.remove_weekends self); [|reflexivity].
  unfold iloc_mask, index. cbn [rows].
  rewrite map_map, select_mask_map.
  apply (index_filter (fun t => (dayofweek t <? 5)%Z)).
Qed.

(** The hourly day, sampled daily: the midnights from the day of its
    earliest row to the day of its latest. *)
Lemma daily_sampling_calendar_witness :
  exists (n : nat) (r_first r_last : Timestamp * list (option Z)),
    In r_first (rows hourly_day) /\ In r_last (rows hourly_day)
    /\ index (Resampler.sample
                (Resampler.mk "periodic" (days 1) [mk_time 0 0 0 0] true
                              (Some 1%nat) (Some true)) hourly_day)
       = map (fun i => normalize (fst r_first)
                       + Z.of_nat i * ns_per_day)%Z (seq 0 n)
    /\ (normalize (fst r_first) + (Z.of_nat n - 1) * ns_per_day
        = normalize (fst r_last))%Z.
Proof.
  destruct (daily_sampling_calendar Z
              (Resampler.mk "periodic" (days 1) [mk_time 0 0 0 0] true
                            (Some 1%nat) (Some true)) hourly_day)
    as (n & r1 & r2 & H1 & H2 & _ & Hindex & Hn & _);
    [reflexivity | reflexivity | apply le_n | discriminate |].
  exists n, r1, r2. repeat split; assumption.
Defined.

(** ** Frames without columns or without rows *)

(** X11. On a fitted [Resampler], [transform] never raises [IndexError]
    on an input that has a column, and with [sampling_type = 'fixed'] it
    raises it on every input that has none.  After a [fit] on a frame
    that had no column, [transform] returns on no input at all: on an
    input that has a column the reshape raises. *)
Theorem transform_without_columns :
  forall (V V0 : Type) (self0 self : Resampler.t) (X0 : DataFrame V0)
         (X : DataFrame V),
    Resampler.fit self0 X0 = Ok self ->
    ((1 <= n_columns X)%nat ->
     Resampler.transform self X <> Raise IndexError)
    /\ (Resampler.sampling_type self = "fixed" -> n_columns X = 0%nat ->
        Resampler.transform self X = Raise IndexError)
    /\ (n_columns X0 = 0%nat ->
        ~ returns (Resampler.transform self X)
        /\ ((1 <= n_columns X)%nat ->
            Resampler.transform self X
            = Raise (ValueError "cannot reshape array"))).
Proof.
  intros V V0 self0 self X0 X Hfit.
  apply ResamplerFacts.resampler_fit_inv in Hfit as [_ Hself].
  rewrite (ResamplerFacts.transform_fitted self X true (n_columns X0))
    by (rewrite Hself; reflexivity).
  pose proof (SamplingFacts.n_columns_sample self X) as Hs.
  pose proof (SamplingFacts.n_columns_drop_weekends self
                (Resampler.sample self X)) as Hd.
  rewrite Hs in Hd.
  destruct (Nat.eq_dec (n_columns X) 0) as [E|E].
  - rewrite iloc_column_0_raises by congruence. simpl.
    split; [lia|]. split; [reflexivity|].
    intros _. split; [|lia]. intros [Y HY]. discriminate.
  - rewrite iloc_column_0_ok by lia. simpl.
    split; [|split; [contradiction|]].
    + intros _. unfold reshape_rows. destruct (_ || _); discriminate.
    + intros H0. split.
      * intros Hr. apply reshape_rows_returns in Hr. lia.
      * intros _. apply reshape_rows_raises. lia.
Qed.

(** A [fit] on the frame without columns, then [transform] on the hourly
    day. *)
Lemma transform_without_columns_witness :
  Resampler.transform
    (Resampler.mk "fixed" (hours 2) [mk_time 0 0 0 0] false (Some 0%nat)
                  (Some true)) hourly_day
  = Raise (ValueError "cannot reshape array").
Proof.
  apply (transform_without_columns Z Z
           (Resampler.__init__ "fixed" (hours 2) None false)
           (Resampler.mk "fixed" (hours 2) [mk_time 0 0 0 0] false
                         (Some 0%nat) (Some true))
           no_column hourly_day).
  - reflexivity.
  - reflexivity.
  - simpl. lia.
Defined.

Lemma sample_no_rows {V : Type} (self : Resampler.t) (X : DataFrame V) :
  rows X = [] ->
  rows (Resampler.drop_weekends self (Resampler.sample self X)) = [].
Proof.
  intros E.
  assert (Hs : rows (Resampler.sample self X) = []).
  { unfold Resampler.sample.
    destruct (Resampler.sampling_type self =? "periodic")%string.
    - unfold resample_first. now rewrite E.
    - destruct (Resampler.sampling_type self =? "fixed")%string;
        [|exact E].
      unfold iloc_mask, index. simpl. now rewrite E. }
  unfold Resampler.drop_weekends.
  destruct (Resampler.remove_weekends self); [|exact Hs].
  unfold iloc_mask, index. simpl. now rewrite Hs.
Qed.

(** X12. On a fitted [Resampler] with [n_features >= 1], an input that
    has a column and no row gives a result without rows, of [n_features]
    columns: [transform] returns, for every sampling type. *)
Theorem transform_without_rows :
  forall (V V0 : Type) (self0 self : Resampler.t) (X0 : DataFrame V0)
         (X : DataFrame V),
    Resampler.fit self0 X0 = Ok self ->
    (1 <= n_columns X0)%nat -> (1 <= n_columns X)%nat -> rows X = [] ->
    Resampler.transform self X = Ok (mk_ndarray (n_columns X0) []).
Proof.
  intros V V0 self0 self X0 X Hfit H0 Hn Hrows.
  apply ResamplerFacts.resampler_fit_inv in Hfit as [_ Hself].
  rewrite (ResamplerFacts.transform_fitted self X true (n_columns X0))
    by (rewrite Hself; reflexivity).
  rewrite iloc_column_0_ok
    by now rewrite SamplingFacts.n_columns_drop_weekends,
             SamplingFacts.n_columns_sample.
  rewrite (sample_no_rows self X Hrows). simpl.
  unfold reshape_rows. simpl length.
  rewrite Nat.Div0.mod_0_l.
  destruct (Nat.eqb_spec (n_columns X0) 0); [lia | reflexivity].
Qed.

(** A frame of two columns without rows, after a [fit] on two columns. *)
Lemma transform_without_rows_witness :
  Resampler.transform
    (Resampler.mk "periodic" (hours 2) [mk_time 0 0 0 0] true (Some 2%nat)
                  (Some true)) (no_row 2)
  = Ok (mk_ndarray 2 []).
Proof.
  apply (transform_without_rows Z Z Resampler.default
           (Resampler.mk "periodic" (hours 2) [mk_time 0 0 0 0] true
                         (Some 2%nat) (Some true))
           missing_value (no_row 2)).
  - reflexivity.
  - simpl. lia.
  - simpl. lia.
  - reflexivity.
Defined.
